(** * TPU node-pool provisioner (axlearn/cloud/gcp/node_pool_provisioner.py)

    A shallow embedding of [TPUNodePoolProvisioner.create_for] and
    [TPUNodePoolProvisioner.delete_for], and the properties of the
    provisioning decision, the pool names and the per-pool labels.

    Conventions of the embedding.
    - A Python [str] is a Rocq [string] holding its UTF-8 bytes, so that
      [s.encode()] is the list of the bytes of [s] and an f-string is a
      concatenation.
    - A Python [int] is a [Z]; [Optional[T]] is [option T]; a [dict] with
      string keys is a [gmap string _].
    - A call of [create_for] or [delete_for] is a value of the monad [M]:
      the events it performed, in order, and how it ended (a raised
      exception or a returned value).
    - [self.config] is the argument [cfg] and [os.environ] the argument
      [env]; the readings of [time.perf_counter] are not part of the
      model. *)

From Stdlib Require Import ZArith String Ascii List DecimalString.
From Stdlib Require DecimalPos DecimalZ.
From stdpp Require Import gmap strings list.
Import ListNotations.

Local Open Scope Z_scope.
Local Open Scope string_scope.

(** ** Python values and library functions *)

Module Py.

(** The two kinds of value [os.environ.get("BASTION_TIER", 0)] can return:
    the [str] found in the environment, or the [int] given as default. *)
Inductive value : Type :=
| Int (z : Z)
| Str (s : string).

(** [a == b] on these values: an [int] never equals a [str]. *)
Definition eqb (a b : value) : bool :=
  match a, b with
  | Int x, Int y => Z.eqb x y
  | Str x, Str y => String.eqb x y
  | _, _ => false
  end.

(** [os.environ] *)
Abbreviation environ := (gmap string string).

(** [os.environ.get(key, default)] *)
Definition environ_get_default (env : environ) (key : string) (default : value) : value :=
  match env !! key with
  | Some s => Str s
  | None => default
  end.

(** [os.environ.get(key)] *)
Definition environ_get (env : environ) (key : string) : option string :=
  env !! key.

(** Truth value of an [Optional[str]]: [None] and the empty string are false. *)
Definition truthy (o : option string) : bool :=
  match o with
  | Some s => negb (String.eqb s EmptyString)
  | None => false
  end.

(** [str(z)] for an [int]. *)
Definition str (z : Z) : string := NilZero.string_of_int (Z.to_int z).

(** [range(n)]: empty when [n <= 0]. *)
Definition range (n : Z) : list Z := seqZ 0 n.

(** [s.encode()]: the bytes of [s], as numbers below 256. *)
Definition encode (s : string) : list Z :=
  map (fun c => Z.of_N (N_of_ascii c)) (list_ascii_of_string s).

End Py.

(** ** hashlib.sha1 (FIPS 180-4, section 6.1) *)

Module Sha1.

Definition w32 (x : Z) : Z := x mod 2 ^ 32.

Definition add32 (x y : Z) : Z := w32 (x + y).

Definition rotl (n x : Z) : Z :=
  w32 (Z.lor (Z.shiftl x n) (Z.shiftr x (32 - n))).

Definition not32 (x : Z) : Z := Z.lxor x (2 ^ 32 - 1).

Definition f (t : nat) (b c d : Z) : Z :=
  if (t <? 20)%nat then Z.lor (Z.land b c) (Z.land (not32 b) d)
  else if (t <? 40)%nat then Z.lxor (Z.lxor b c) d
  else if (t <? 60)%nat then
    Z.lor (Z.lor (Z.land b c) (Z.land b d)) (Z.land c d)
  else Z.lxor (Z.lxor b c) d.

Definition K (t : nat) : Z :=
  if (t <? 20)%nat then 0x5a827999
  else if (t <? 40)%nat then 0x6ed9eba1
  else if (t <? 60)%nat then 0x8f1bbcdc
  else 0xca62c1d6.

(** The 64-bit big-endian length field. *)
Definition be_bytes (count : nat) (x : Z) : list Z :=
  map (fun i => Z.shiftr x (8 * Z.of_nat (count - 1 - i)) mod 256) (seq 0 count).

Definition pad (msg : list Z) : list Z :=
  let len := Z.of_nat (length msg) in
  msg ++ [0x80] ++ repeat 0 (Z.to_nat ((55 - len) mod 64)) ++ be_bytes 8 (8 * len).

Definition be_word (bs : list Z) : Z :=
  fold_left (fun acc b => acc * 256 + b) bs 0.

(** The sixteen words of a 64-byte block. *)
Definition block_words (block : list Z) : list Z :=
  map (fun i => be_word (firstn 4 (skipn (4 * i) block))) (seq 0 16).

(** The message schedule, most recent word first. *)
Fixpoint extend (n : nat) (rev_ws : list Z) : list Z :=
  match n with
  | O => rev_ws
  | S n' =>
      let x := Z.lxor (Z.lxor (Z.lxor (nth 2 rev_ws 0) (nth 7 rev_ws 0))
                              (nth 13 rev_ws 0)) (nth 15 rev_ws 0) in
      extend n' (rotl 1 x :: rev_ws)
  end.

Definition schedule (block : list Z) : list Z :=
  rev (extend 64 (rev (block_words block))).

Record state := State { ha : Z; hb : Z; hc : Z; hd : Z; he : Z }.

Definition round (s : state) (tw : nat * Z) : state :=
  let '(t, w) := tw in
  let temp :=
    add32 (add32 (add32 (add32 (rotl 5 (ha s)) (f t (hb s) (hc s) (hd s))) (he s)) w) (K t) in
  State temp (ha s) (rotl 30 (hb s)) (hc s) (hd s).

Definition compress (h : state) (block : list Z) : state :=
  let s := fold_left round (combine (seq 0 80) (schedule block)) h in
  State (add32 (ha h) (ha s)) (add32 (hb h) (hb s)) (add32 (hc h) (hc s))
        (add32 (hd h) (hd s)) (add32 (he h) (he s)).

Definition init : state :=
  State 0x67452301 0xefcdab89 0x98badcfe 0x10325476 0xc3d2e1f0.

Definition blocks (bytes : list Z) : list (list Z) :=
  map (fun i => firstn 64 (skipn (64 * i) bytes)) (seq 0 (length bytes / 64)).

Definition digest_state (msg : list Z) : state :=
  fold_left compress (blocks (pad msg)) init.

Definition hex_digit (n : Z) : ascii :=
  match String.get (Z.to_nat (n mod 16)) "0123456789abcdef" with
  | Some c => c
  | None => "0"%char
  end.

(** Eight lower-case hexadecimal digits of a 32-bit word. *)
Definition hex_word (x : Z) : string :=
  string_of_list_ascii
    (map (fun i => hex_digit (Z.shiftr x (4 * Z.of_nat (7 - i)))) (seq 0 8)).

(** [hashlib.sha1(msg).hexdigest()] *)
Definition hexdigest (msg : list Z) : string :=
  let s := digest_state msg in
  hex_word (ha s) ++ hex_word (hb s) ++ hex_word (hc s) ++ hex_word (hd s)
    ++ hex_word (he s).

End Sha1.


(** ** Exceptions, events and the monad of a call *)

Inductive exn : Type :=
| TypeError
| KeyError (key : string)
| ValueError (msg : string)
| OtherError (msg : string).

(** The classes [isinstance] distinguishes in this file. An object of a
    subclass counts as an object of the class; every other class is
    [OtherClass]. *)
Inductive py_class : Type :=
| TPUGKEJob
| FlinkTPUGKEJob
| OtherClass (type_name : string).

Definition py_class_eqb (a b : py_class) : bool :=
  match a, b with
  | TPUGKEJob, TPUGKEJob => true
  | FlinkTPUGKEJob, FlinkTPUGKEJob => true
  | OtherClass x, OtherClass y => String.eqb x y
  | _, _ => false
  end.

(** [builder_cfg.accelerator] *)
Module Accelerator.
Record Config := { instance_type : string; num_replicas : Z }.
End Accelerator.

(** [TPUReplicatedJob.Config], the fields the provisioner reads. *)
Module TPUReplicatedJob.
Record Config := {
  accelerator : Accelerator.Config;
  reservation : option string;
  location_hint : option string;
  enable_tpu_ici_resiliency : option bool;
  enable_tpu_smart_repair : bool
}.
End TPUReplicatedJob.

(** The job passed to [create_for] and [delete_for]: its class and its
    [config]. *)
Module Job.
Record Config := {
  namespace : string;
  name : string;
  builder : TPUReplicatedJob.Config
}.
Record t := { class_of : py_class; config : Config }.
End Job.

(** An entry of [USER_FACING_NAME_TO_SYSTEM_CHARACTERISTICS], the fields the
    provisioner reads. *)
Module SystemCharacteristics.
Record t := {
  vms_per_slice : Z;
  gce_machine_type : string;
  topology : string
}.
End SystemCharacteristics.

(** What [deserialize_jobspec] returns, down to [spec.metadata.priority]. *)
Module JobSpec.
Record Metadata := { priority : option Z }.
Record t := { metadata : Metadata }.
End JobSpec.

(** [NodePoolProvisioner.Config] *)
Module Provisioner.
Record Config := {
  project : string;
  zone : string;
  cluster : string;
  name : string;
  service_account_email : option string;
  retry_interval : Z;
  wait_timeout : Z
}.
End Provisioner.

(** The arguments of the call of [create_node_pools] (lines 148-165). *)
Module CreateCall.
Record t := {
  node_pool_names : list string;
  project : string;
  zone : string;
  cluster : string;
  pre_provisioner_id : string;
  num_nodes_per_pool : Z;
  machine_type : string;
  topology : option string;
  use_spot_vm : bool;
  reservation : option string;
  location_hint : option string;
  enable_tpu_ici_resiliency : option bool;
  service_account_email : option string;
  additional_labels_list : list (gmap string string);
  retry_interval : Z;
  wait_timeout : Z
}.
End CreateCall.

(** The arguments of the call of [delete_node_pools] (lines 193-200). *)
Module DeleteCall.
Record t := {
  node_pool_names : list string;
  project : string;
  zone : string;
  cluster : string;
  retry_interval : Z;
  wait_timeout : Z
}.
End DeleteCall.

(** What a call does that the outside can see, in order. A log line is
    recorded by its format string: its arguments include readings of
    [time.perf_counter]. *)
Inductive event : Type :=
| LogInfo (fmt : string)
| ConstructNodePoolName (jobset_namespace jobset_name : string) (index : Z)
| CreateNodePools (args : CreateCall.t)
| DeleteNodePools (args : DeleteCall.t).

(** A computation: the events so far, and an exception or a value. *)
Definition M (A : Type) : Type := list event * (exn + A).

#[global] Instance M_ret : MRet M := λ A a, ([], inr a).

#[global] Instance M_bind : MBind M := λ A B k m,
  match m with
  | (tr, inl e) => (tr, inl e)
  | (tr, inr a) => let '(tr', r) := k a in ((tr ++ tr')%list, r)
  end.

Definition raise {A} (e : exn) : M A := ([], inl e).

Definition emit (ev : event) : M unit := ([ev], inr tt).

(** A call of a function that performs no event of its own. *)
Definition lift {A} (r : exn + A) : M A := ([], r).

(** [d[key]] *)
Definition getitem {V} (d : gmap string V) (key : string) : M V :=
  match d !! key with
  | Some v => mret v
  | None => raise (KeyError key)
  end.

(** [for x in xs: body], with the variables the body assigns as [s]. *)
Fixpoint for_in {A S} (xs : list A) (body : A → S → M S) (s : S) : M S :=
  match xs with
  | [] => mret s
  | x :: xs' => s' ← body x s; for_in xs' body s'
  end.

Definition trace {A} (m : M A) : list event := fst m.
Definition outcome {A} (m : M A) : exn + A := snd m.

(** [isinstance(job, classes)] *)
Definition isinstance (job : Job.t) (classes : list py_class) : bool :=
  existsb (py_class_eqb (Job.class_of job)) classes.

Arguments isinstance : simpl never.

Definition _PRE_PROVISIONER_SUPPORTED_JOBS : list py_class := [TPUGKEJob; FlinkTPUGKEJob].
Definition _INFERENCE_JOBS : list py_class := [FlinkTPUGKEJob].

(** ** The imported collaborators

    What the module imports from the rest of the repository. The control-plane
    client is taken by the result of its one call in an episode. *)
Class Imports := {
  (** [axlearn.cloud.common.bastion._BASTION_SERIALIZED_JOBSPEC_ENV_VAR] *)
  _BASTION_SERIALIZED_JOBSPEC_ENV_VAR : string;
  (** [axlearn.cloud.common.bastion.deserialize_jobspec], applied to the
      contents of the stream *)
  deserialize_jobspec : string → exn + JobSpec.t;
  (** [axlearn.cloud.gcp.tpu.infer_tpu_type] *)
  infer_tpu_type : string → exn + string;
  (** [axlearn.cloud.gcp.system_characteristics] *)
  USER_FACING_NAME_TO_SYSTEM_CHARACTERISTICS : gmap string SystemCharacteristics.t;
  (** [axlearn.cloud.gcp.node_pool.construct_node_pool_name] *)
  construct_node_pool_name : string → string → Z → string;
  (** [axlearn.cloud.gcp.node_pool.create_node_pools] *)
  create_node_pools : CreateCall.t → exn + unit;
  (** [axlearn.cloud.gcp.node_pool.delete_node_pools] *)
  delete_node_pools : DeleteCall.t → exn + unit
}.

(** ** TPUNodePoolProvisioner *)

Section TPUNodePoolProvisioner.

Context `{Imports}.

(** Lines 103-110: the tier read from the environment and the capacity
    class chosen from it; returns [(use_spot_vm, reservation)]. *)
Definition resolve_capacity (env : Py.environ) (reservation : option string)
  : M (bool * option string) :=
  let tier := Py.environ_get_default env "BASTION_TIER" (Py.Int 0) in
  if Py.eqb tier (Py.Str "0") && bool_decide (reservation ≠ None) then
    emit (LogInfo "Found tier=%s in env. Using reservation=%s");;
    mret (false, reservation)
  else
    emit (LogInfo "Found tier=%s in env. Using spot quota");;
    mret (true, None).

(** Lines 112-117: the priority of the serialized job spec, when the
    environment holds a non-empty one. *)
Definition resolve_job_priority (env : Py.environ) : M (option Z) :=
  if Py.truthy (Py.environ_get env _BASTION_SERIALIZED_JOBSPEC_ENV_VAR) then
    spec ← lift (deserialize_jobspec
                   (default EmptyString
                      (Py.environ_get env _BASTION_SERIALIZED_JOBSPEC_ENV_VAR)));
    mret (JobSpec.priority (JobSpec.metadata spec))
  else mret None.

(** Lines 132-142: the labels of pool [i]. *)
Definition additional_labels_of (job_cfg : Job.Config) (job_priority : option Z)
    (enable_tpu_smart_repair : bool) (i : Z) : gmap string string :=
  let job_key :=
    Sha1.hexdigest
      (Py.encode (Job.namespace job_cfg ++ "/" ++ Job.name job_cfg ++ "-job-" ++ Py.str i)) in
  let additional_labels : gmap string string := {[ "job-key" := job_key ]} in
  let additional_labels :=
    match job_priority with
    | Some p => <[ "job-priority" := Py.str p ]> additional_labels
    | None => additional_labels
    end in
  if enable_tpu_smart_repair then
    <[ "cloud.google.com/gke-tpu-auto-restart" := "true" ]> additional_labels
  else additional_labels.

(** Lines 122-126 and 186-190: the call of [construct_node_pool_name]. *)
Definition node_pool_name (job_cfg : Job.Config) (i : Z) : M string :=
  emit (ConstructNodePoolName (Job.namespace job_cfg) (Job.name job_cfg) i);;
  mret (construct_node_pool_name (Job.namespace job_cfg) (Job.name job_cfg) i).

(** Lines 121-144: one turn of the loop of [create_for], on
    [(node_pool_names, additional_labels_list)]. *)
Definition create_for_body (job_cfg : Job.Config) (job_priority : option Z)
    (enable_tpu_smart_repair : bool) (i : Z)
    (s : list string * list (gmap string string))
  : M (list string * list (gmap string string)) :=
  let '(node_pool_names, additional_labels_list) := s in
  pool_name ← node_pool_name job_cfg i;
  let additional_labels :=
    additional_labels_of job_cfg job_priority enable_tpu_smart_repair i in
  mret ((node_pool_names ++ [pool_name])%list,
        (additional_labels_list ++ [additional_labels])%list).

(** [TPUNodePoolProvisioner.create_for] *)
Definition create_for (cfg : Provisioner.Config) (env : Py.environ) (job : Job.t) : M unit :=
  if negb (isinstance job _PRE_PROVISIONER_SUPPORTED_JOBS) then raise TypeError
  else
    let job_cfg := Job.config job in
    let builder_cfg := Job.builder job_cfg in
    let acc_cfg := TPUReplicatedJob.accelerator builder_cfg in
    let reservation := TPUReplicatedJob.reservation builder_cfg in
    let location_hint := TPUReplicatedJob.location_hint builder_cfg in
    let enable_tpu_ici_resiliency := TPUReplicatedJob.enable_tpu_ici_resiliency builder_cfg in
    let enable_tpu_smart_repair := TPUReplicatedJob.enable_tpu_smart_repair builder_cfg in
    tpu_type ← lift (infer_tpu_type (Accelerator.instance_type acc_cfg));
    job_sys_property ← getitem USER_FACING_NAME_TO_SYSTEM_CHARACTERISTICS tpu_type;
    let num_node_pools := Accelerator.num_replicas acc_cfg in
    '(use_spot_vm, reservation) ← resolve_capacity env reservation;
    job_priority ← resolve_job_priority env;
    '(node_pool_names, additional_labels_list) ←
      for_in (Py.range num_node_pools)
             (create_for_body job_cfg job_priority enable_tpu_smart_repair) ([], []);
    let topology :=
      if isinstance job _INFERENCE_JOBS then None
      else Some (SystemCharacteristics.topology job_sys_property) in
    let args := {|
      CreateCall.node_pool_names := node_pool_names;
      CreateCall.project := Provisioner.project cfg;
      CreateCall.zone := Provisioner.zone cfg;
      CreateCall.cluster := Provisioner.cluster cfg;
      CreateCall.pre_provisioner_id := Provisioner.name cfg;
      CreateCall.num_nodes_per_pool := SystemCharacteristics.vms_per_slice job_sys_property;
      CreateCall.machine_type := SystemCharacteristics.gce_machine_type job_sys_property;
      CreateCall.topology := topology;
      CreateCall.use_spot_vm := use_spot_vm;
      CreateCall.reservation := reservation;
      CreateCall.location_hint := location_hint;
      CreateCall.enable_tpu_ici_resiliency := enable_tpu_ici_resiliency;
      CreateCall.service_account_email := Provisioner.service_account_email cfg;
      CreateCall.additional_labels_list := additional_labels_list;
      CreateCall.retry_interval := Provisioner.retry_interval cfg;
      CreateCall.wait_timeout := Provisioner.wait_timeout cfg
    |} in
    emit (CreateNodePools args);;
    lift (create_node_pools args);;
    emit (LogInfo "%s node pools for %s creation took %s seconds").

(** Lines 185-190: one turn of the loop of [delete_for], on
    [node_pool_names]. *)
Definition delete_for_body (job_cfg : Job.Config) (i : Z) (node_pool_names : list string)
  : M (list string) :=
  pool_name ← node_pool_name job_cfg i;
  mret (node_pool_names ++ [pool_name])%list.

(** [TPUNodePoolProvisioner.delete_for] *)
Definition delete_for (cfg : Provisioner.Config) (job : Job.t) : M unit :=
  if negb (isinstance job _PRE_PROVISIONER_SUPPORTED_JOBS) then raise TypeError
  else
    let job_cfg := Job.config job in
    let builder_cfg := Job.builder job_cfg in
    let num_node_pools :=
      Accelerator.num_replicas (TPUReplicatedJob.accelerator builder_cfg) in
    node_pool_names ← for_in (Py.range num_node_pools) (delete_for_body job_cfg) [];
    let args := {|
      DeleteCall.node_pool_names := node_pool_names;
      DeleteCall.project := Provisioner.project cfg;
      DeleteCall.zone := Provisioner.zone cfg;
      DeleteCall.cluster := Provisioner.cluster cfg;
      DeleteCall.retry_interval := Provisioner.retry_interval cfg;
      DeleteCall.wait_timeout := Provisioner.wait_timeout cfg
    |} in
    emit (DeleteNodePools args);;
    lift (delete_node_pools args);;
    emit (LogInfo "Node pool deletion took %s seconds").

End TPUNodePoolProvisioner.

(** ** Views of a run *)

(** The calls of [create_node_pools] in a trace, in order. *)
Definition create_calls (tr : list event) : list CreateCall.t :=
  omap (λ ev, match ev with CreateNodePools a => Some a | _ => None end) tr.

(** The calls of [delete_node_pools] in a trace, in order. *)
Definition delete_calls (tr : list event) : list DeleteCall.t :=
  omap (λ ev, match ev with DeleteNodePools a => Some a | _ => None end) tr.

(** The pool names derived in a trace: the arguments of each call of
    [construct_node_pool_name], in order. *)
Definition derived_names (tr : list event) : list (string * string * Z) :=
  omap (λ ev, match ev with
              | ConstructNodePoolName ns n i => Some (ns, n, i)
              | _ => None
              end) tr.

(** A job the provisioner supports. *)
Definition supported (job : Job.t) : Prop :=
  isinstance job _PRE_PROVISIONER_SUPPORTED_JOBS = true.

Definition job_reservation (job : Job.t) : option string :=
  TPUReplicatedJob.reservation (Job.builder (Job.config job)).

Definition job_num_node_pools (job : Job.t) : Z :=
  Accelerator.num_replicas (TPUReplicatedJob.accelerator (Job.builder (Job.config job))).

Definition job_instance_type (job : Job.t) : string :=
  Accelerator.instance_type (TPUReplicatedJob.accelerator (Job.builder (Job.config job))).

Definition job_smart_repair (job : Job.t) : bool :=
  TPUReplicatedJob.enable_tpu_smart_repair (Job.builder (Job.config job)).

(** [create_for] gets as far as the control-plane call: the job is supported,
    its accelerator type resolves to the catalog entry [sp], and the job
    descriptor, when there is one, is read with priority [prio]. *)
Definition accepted `{Imports} (env : Py.environ) (job : Job.t)
    (sp : SystemCharacteristics.t) (prio : option Z) : Prop :=
  supported job ∧
  (∃ tpu_type, infer_tpu_type (job_instance_type job) = inr tpu_type ∧
               USER_FACING_NAME_TO_SYSTEM_CHARACTERISTICS !! tpu_type = Some sp) ∧
  outcome (resolve_job_priority env) = inr prio.

(** The names [create_for] and [delete_for] give the pools of a job. *)
Definition pool_names_of `{Imports} (job : Job.t) : list string :=
  map (construct_node_pool_name (Job.namespace (Job.config job)) (Job.name (Job.config job)))
      (Py.range (job_num_node_pools job)).

(** The events of deriving these names. *)
Definition naming_events (job : Job.t) : list event :=
  map (ConstructNodePoolName (Job.namespace (Job.config job)) (Job.name (Job.config job)))
      (Py.range (job_num_node_pools job)).

(** The arguments [create_for] passes to [create_node_pools] for a job with
    catalog entry [sp], capacity class [(use_spot_vm, reservation)] and
    priority [prio]. *)
Definition create_call_of `{Imports} (cfg : Provisioner.Config) (job : Job.t)
    (sp : SystemCharacteristics.t) (use_spot_vm : bool) (reservation : option string)
    (prio : option Z) : CreateCall.t := {|
  CreateCall.node_pool_names := pool_names_of job;
  CreateCall.project := Provisioner.project cfg;
  CreateCall.zone := Provisioner.zone cfg;
  CreateCall.cluster := Provisioner.cluster cfg;
  CreateCall.pre_provisioner_id := Provisioner.name cfg;
  CreateCall.num_nodes_per_pool := SystemCharacteristics.vms_per_slice sp;
  CreateCall.machine_type := SystemCharacteristics.gce_machine_type sp;
  CreateCall.topology :=
    if isinstance job _INFERENCE_JOBS then None else Some (SystemCharacteristics.topology sp);
  CreateCall.use_spot_vm := use_spot_vm;
  CreateCall.reservation := reservation;
  CreateCall.location_hint := TPUReplicatedJob.location_hint (Job.builder (Job.config job));
  CreateCall.enable_tpu_ici_resiliency :=
    TPUReplicatedJob.enable_tpu_ici_resiliency (Job.builder (Job.config job));
  CreateCall.service_account_email := Provisioner.service_account_email cfg;
  CreateCall.additional_labels_list :=
    map (additional_labels_of (Job.config job) prio (job_smart_repair job))
        (Py.range (job_num_node_pools job));
  CreateCall.retry_interval := Provisioner.retry_interval cfg;
  CreateCall.wait_timeout := Provisioner.wait_timeout cfg
|}.

(** The arguments [delete_for] passes to [delete_node_pools]. *)
Definition delete_call_of `{Imports} (cfg : Provisioner.Config) (job : Job.t)
  : DeleteCall.t := {|
  DeleteCall.node_pool_names := pool_names_of job;
  DeleteCall.project := Provisioner.project cfg;
  DeleteCall.zone := Provisioner.zone cfg;
  DeleteCall.cluster := Provisioner.cluster cfg;
  DeleteCall.retry_interval := Provisioner.retry_interval cfg;
  DeleteCall.wait_timeout := Provisioner.wait_timeout cfg
|}.

(** The events after a control-plane call that ended with [r]. *)
Definition after_call (r : exn + unit) (fmt : string) : list event :=
  match r with
  | inr _ => [LogInfo fmt]
  | inl _ => []
  end.

(** ** A sample installation, for running the definitions *)

Module Sample.

Definition entry : SystemCharacteristics.t := {|
  SystemCharacteristics.vms_per_slice := 4;
  SystemCharacteristics.gce_machine_type := "ct5lp-hightpu-4t";
  SystemCharacteristics.topology := "4x4"
|}.

Definition catalog : gmap string SystemCharacteristics.t := {[ "v5litepod-16" := entry ]}.

(** A descriptor that is a decimal number, the priority. *)
Definition deserialize (s : string) : exn + JobSpec.t :=
  match NilZero.int_of_string s with
  | Some i => inr {| JobSpec.metadata := {| JobSpec.priority := Some (Z.of_int i) |} |}
  | None => inl (ValueError s)
  end.

Definition infer (instance_type : string) : exn + string :=
  if String.prefix "tpu-" instance_type
  then inr (String.substring 4 (String.length instance_type - 4) instance_type)
  else inl (ValueError instance_type).

Definition pool_name (ns n : string) (i : Z) : string := ns ++ "-" ++ n ++ "-" ++ Py.str i.

Definition imports : Imports := {|
  _BASTION_SERIALIZED_JOBSPEC_ENV_VAR := "_BASTION_SERIALIZED_JOBSPEC";
  deserialize_jobspec := deserialize;
  infer_tpu_type := infer;
  USER_FACING_NAME_TO_SYSTEM_CHARACTERISTICS := catalog;
  construct_node_pool_name := pool_name;
  create_node_pools := λ _, inr ();
  delete_node_pools := λ _, inr ()
|}.

(** An installation with an empty catalog and a control plane that times
    out. *)
Definition bare : Imports := {|
  _BASTION_SERIALIZED_JOBSPEC_ENV_VAR := "_BASTION_SERIALIZED_JOBSPEC";
  deserialize_jobspec := deserialize;
  infer_tpu_type := infer;
  USER_FACING_NAME_TO_SYSTEM_CHARACTERISTICS := ∅;
  construct_node_pool_name := pool_name;
  create_node_pools := λ _, inl (OtherError "timeout");
  delete_node_pools := λ _, inl (OtherError "timeout")
|}.

Definition cfg : Provisioner.Config := {|
  Provisioner.project := "proj";
  Provisioner.zone := "us-east5-a";
  Provisioner.cluster := "cl";
  Provisioner.name := "pre";
  Provisioner.service_account_email := None;
  Provisioner.retry_interval := 30;
  Provisioner.wait_timeout := 30 * 60
|}.

Definition job (cls : py_class) (instance_type : string) (replicas : Z)
    (reservation : option string) (repair : bool) : Job.t := {|
  Job.class_of := cls;
  Job.config := {|
    Job.namespace := "ns1";
    Job.name := "job1";
    Job.builder := {|
      TPUReplicatedJob.accelerator :=
        {| Accelerator.instance_type := instance_type;
           Accelerator.num_replicas := replicas |};
      TPUReplicatedJob.reservation := reservation;
      TPUReplicatedJob.location_hint := None;
      TPUReplicatedJob.enable_tpu_ici_resiliency := None;
      TPUReplicatedJob.enable_tpu_smart_repair := repair
    |}
  |}
|}.

Definition training : Job.t := job TPUGKEJob "tpu-v5litepod-16" 2 (Some "resA") true.
Definition inference : Job.t := job FlinkTPUGKEJob "tpu-v5litepod-16" 1 (Some "resA") false.
Definition unknown_type : Job.t := job TPUGKEJob "tpu-v9-8" 2 None false.
Definition unsupported : Job.t := job (OtherClass "GPUGKEJob") "tpu-v5litepod-16" 2 None false.

Definition tier (s : string) : Py.environ := {[ "BASTION_TIER" := s ]}.
Definition tier_and_spec (s spec : string) : Py.environ :=
  <[ "_BASTION_SERIALIZED_JOBSPEC" := spec ]> (tier s).

End Sample.


(** More sample inputs: a control plane that times out, and jobs at the
    edges. *)
Module Cases.

Definition outage : Imports := {|
  _BASTION_SERIALIZED_JOBSPEC_ENV_VAR := "_BASTION_SERIALIZED_JOBSPEC";
  deserialize_jobspec := Sample.deserialize;
  infer_tpu_type := Sample.infer;
  USER_FACING_NAME_TO_SYSTEM_CHARACTERISTICS := Sample.catalog;
  construct_node_pool_name := Sample.pool_name;
  create_node_pools := λ _, inl (OtherError "timeout");
  delete_node_pools := λ _, inl (OtherError "timeout")
|}.

(** A training job with the given namespace and name. *)
Definition named (ns n : string) : Job.t := {|
  Job.class_of := TPUGKEJob;
  Job.config := {|
    Job.namespace := ns;
    Job.name := n;
    Job.builder := Job.builder (Job.config Sample.training)
  |}
|}.

(** No replicas. *)
Definition idle : Job.t := Sample.job TPUGKEJob "tpu-v5litepod-16" 0 None false.

(** An instance type [Sample.infer] rejects. *)
Definition bad_instance : Job.t := Sample.job TPUGKEJob "v5litepod-16" 2 None false.

(** [Sample.training] as an inference job. *)
Definition serving : Job.t :=
  {| Job.class_of := FlinkTPUGKEJob; Job.config := Job.config Sample.training |}.

End Cases.

(** The characters of [hexdigest]: a digit or a letter from a to f. *)
Definition is_lower_hex (c : ascii) : bool :=
  let n := nat_of_ascii c in
  ((48 <=? n) && (n <=? 57) || (97 <=? n) && (n <=? 102))%nat.

(** ** The library functions on known values *)

Section KnownValues.

Example sha1_empty :
  Sha1.hexdigest (Py.encode EmptyString) = "da39a3ee5e6b4b0d3255bfef95601890afd80709".
Proof. vm_compute. reflexivity. Qed.

Example sha1_abc :
  Sha1.hexdigest (Py.encode "abc") = "a9993e364706816aba3e25717850c26c9cd0d89d".
Proof. vm_compute. reflexivity. Qed.

(** A message of 56 bytes, padded to two blocks. *)
Example sha1_two_blocks :
  Sha1.hexdigest (Py.encode "abcdbcdecdefdefgefghfghighijhijkijkljklmklmnlmnomnopnopq")
  = "84983e441c3bd26ebaae4aa1f95129e5e54670f1".
Proof. vm_compute. reflexivity. Qed.

Example str_values : (Py.str 0, Py.str 12, Py.str (-5)) = ("0", "12", "-5").
Proof. reflexivity. Qed.

Example range_values : (Py.range 3, Py.range 0, Py.range (-2)) = ([0; 1; 2], [], []).
Proof. reflexivity. Qed.

(** [0 == "0"] is false, ["0" == "0"] is true. *)
Example eqb_values :
  (Py.eqb (Py.Int 0) (Py.Str "0"), Py.eqb (Py.Str "0") (Py.Str "0")) = (false, true).
Proof. reflexivity. Qed.

(** A run of [delete_for]: the names, the call, the log line. *)
Example delete_for_sample :
  delete_for (H:=Sample.imports) Sample.cfg Sample.training =
    ([ConstructNodePoolName "ns1" "job1" 0;
      ConstructNodePoolName "ns1" "job1" 1;
      DeleteNodePools {|
        DeleteCall.node_pool_names := ["ns1-job1-0"; "ns1-job1-1"];
        DeleteCall.project := "proj";
        DeleteCall.zone := "us-east5-a";
        DeleteCall.cluster := "cl";
        DeleteCall.retry_interval := 30;
        DeleteCall.wait_timeout := 1800 |};
      LogInfo "Node pool deletion took %s seconds"],
     inr ()).
Proof. reflexivity. Qed.

(** A run of [create_for] that stops at the job descriptor, after the
    capacity class was logged. *)
Example create_for_bad_descriptor :
  create_for (H:=Sample.imports) Sample.cfg (Sample.tier_and_spec "0" "x") Sample.training =
    ([LogInfo "Found tier=%s in env. Using reservation=%s"], inl (ValueError "x")).
Proof. vm_compute. reflexivity. Qed.

End KnownValues.

(** ** Properties *)

Section Monad.

Lemma mbind_inr {A B} (tr : list event) (a : A) (k : A → M B) :
  mbind k ((tr, inr a) : M A) = ((tr ++ trace (k a))%list, outcome (k a)).
Proof. unfold mbind, M_bind, trace, outcome. by destruct (k a). Qed.

Lemma mbind_inl {A B} (tr : list event) (e : exn) (k : A → M B) :
  mbind k ((tr, inl e) : M A) = (tr, inl e).
Proof. reflexivity. Qed.

Lemma create_calls_app tr1 tr2 :
  create_calls (tr1 ++ tr2) = (create_calls tr1 ++ create_calls tr2)%list.
Proof. apply omap_app. Qed.

Lemma delete_calls_app tr1 tr2 :
  delete_calls (tr1 ++ tr2) = (delete_calls tr1 ++ delete_calls tr2)%list.
Proof. apply omap_app. Qed.

Lemma create_calls_naming ns n (xs : list Z) :
  create_calls (map (ConstructNodePoolName ns n) xs) = [].
Proof. induction xs as [|x xs IH]; [done | exact IH]. Qed.

Lemma delete_calls_naming ns n (xs : list Z) :
  delete_calls (map (ConstructNodePoolName ns n) xs) = [].
Proof. induction xs as [|x xs IH]; [done | exact IH]. Qed.

End Monad.

Section Loops.

Context `{Imports}.

Lemma for_in_create_for_body job_cfg prio repair (xs : list Z) names labels :
  for_in xs (create_for_body job_cfg prio repair) (names, labels) =
    (map (ConstructNodePoolName (Job.namespace job_cfg) (Job.name job_cfg)) xs,
     inr ((names ++ map (construct_node_pool_name (Job.namespace job_cfg)
                           (Job.name job_cfg)) xs)%list,
          (labels ++ map (additional_labels_of job_cfg prio repair) xs)%list)).
Proof.
  revert names labels.
  induction xs as [|x xs IH]; intros names labels; simpl.
  - by rewrite !app_nil_r.
  - rewrite IH. by rewrite <- !app_assoc.
Qed.

Lemma for_in_delete_for_body job_cfg (xs : list Z) names :
  for_in xs (delete_for_body job_cfg) names =
    (map (ConstructNodePoolName (Job.namespace job_cfg) (Job.name job_cfg)) xs,
     inr (names ++ map (construct_node_pool_name (Job.namespace job_cfg)
                          (Job.name job_cfg)) xs)%list).
Proof.
  revert names.
  induction xs as [|x xs IH]; intros names; simpl.
  - by rewrite app_nil_r.
  - rewrite IH. by rewrite <- app_assoc.
Qed.

End Loops.

Section Runs.

Context `{Imports}.

Lemma resolve_capacity_cases env (r : option string) :
  (env !! "BASTION_TIER" = Some "0" ∧ r ≠ None ∧
   resolve_capacity env r =
     ([LogInfo "Found tier=%s in env. Using reservation=%s"], inr (false, r)))
  ∨ ((env !! "BASTION_TIER" ≠ Some "0" ∨ r = None) ∧
     resolve_capacity env r =
       ([LogInfo "Found tier=%s in env. Using spot quota"], inr (true, None))).
Proof.
  unfold resolve_capacity, Py.environ_get_default.
  destruct (env !! "BASTION_TIER") as [s|] eqn:Htier; simpl.
  - destruct (String.eqb_spec s "0") as [->|Hne]; simpl.
    + destruct r as [R|]; simpl.
      * left. done.
      * right. split; [by right | done].
    + right. split; [left; congruence | done].
  - right. split; [by left | done].
Qed.

Lemma resolve_job_priority_trace env : trace (resolve_job_priority env) = [].
Proof.
  unfold resolve_job_priority.
  destruct (Py.truthy _); [|done].
  unfold lift. by destruct (deserialize_jobspec _).
Qed.

(** The priority comes from the descriptor, when the environment holds a
    non-empty one that deserializes. *)
Lemma resolve_job_priority_cases env :
  match env !! _BASTION_SERIALIZED_JOBSPEC_ENV_VAR with
  | None | Some EmptyString => resolve_job_priority env = ([], inr None)
  | Some s =>
      resolve_job_priority env =
        ([], match deserialize_jobspec s with
             | inl e => inl e
             | inr spec => inr (JobSpec.priority (JobSpec.metadata spec))
             end)
  end.
Proof.
  unfold resolve_job_priority, Py.environ_get.
  destruct (env !! _BASTION_SERIALIZED_JOBSPEC_ENV_VAR) as [[|c s]|]; simpl; try done.
  unfold lift. by destruct (deserialize_jobspec _).
Qed.

(** The run of [create_for] on an accepted job. *)
Lemma create_for_accepted cfg env job sp prio :
  accepted env job sp prio →
  ∃ fmt use_spot_vm reservation,
    resolve_capacity env (job_reservation job) = ([LogInfo fmt], inr (use_spot_vm, reservation)) ∧
    let a := create_call_of cfg job sp use_spot_vm reservation prio in
    create_for cfg env job =
      (((LogInfo fmt :: naming_events job) ++ CreateNodePools a ::
          after_call (create_node_pools a)
            "%s node pools for %s creation took %s seconds")%list,
       create_node_pools a).
Proof.
  intros (Hsup & (tpu_type & Hinfer & Hcat) & Hprio).
  assert (∃ fmt use_spot_vm reservation,
    resolve_capacity env (job_reservation job) =
      ([LogInfo fmt], inr (use_spot_vm, reservation))) as (fmt & spot & res & Hcap).
  { destruct (resolve_capacity_cases env (job_reservation job)) as [(_ & _ & ->)|(_ & ->)];
      eauto. }
  exists fmt, spot, res. split; [exact Hcap|]. intros a.
  unfold create_for. unfold supported in Hsup. rewrite Hsup. simpl.
  unfold job_instance_type in Hinfer. rewrite Hinfer. unfold lift, getitem. simpl.
  rewrite Hcat. simpl.
  unfold job_reservation in Hcap. rewrite Hcap. simpl.
  pose proof (resolve_job_priority_trace env) as Htr.
  destruct (resolve_job_priority env) as [tr o]. simpl in Htr, Hprio. subst tr o.
  simpl. rewrite for_in_create_for_body. simpl.
  subst a.
  unfold create_call_of, pool_names_of, naming_events, job_num_node_pools, job_smart_repair.
  match goal with
  | |- context [create_node_pools ?x] => destruct (create_node_pools x) as [e|[]]
  end; simpl; by rewrite ?app_nil_r.
Qed.

(** An accepted job gets exactly one call of [create_node_pools], with the
    capacity class [resolve_capacity] chose. *)
Lemma create_calls_accepted cfg env job sp prio :
  accepted env job sp prio →
  ∃ fmt use_spot_vm reservation,
    resolve_capacity env (job_reservation job) = ([LogInfo fmt], inr (use_spot_vm, reservation)) ∧
    create_calls (trace (create_for cfg env job)) =
      [create_call_of cfg job sp use_spot_vm reservation prio].
Proof.
  intros Hacc.
  destruct (create_for_accepted cfg env job sp prio Hacc) as (fmt & spot & res & Hcap & Hrun).
  exists fmt, spot, res. split; [exact Hcap|].
  simpl in Hrun. rewrite Hrun. unfold trace, naming_events. simpl.
  rewrite create_calls_app, create_calls_naming.
  by destruct (create_node_pools _).
Qed.

(** [create_for] calls [create_node_pools] on accepted jobs only. *)
Lemma create_call_accepted cfg env job a :
  a ∈ create_calls (trace (create_for cfg env job)) →
  ∃ sp prio, accepted env job sp prio.
Proof.
  unfold accepted, supported, job_instance_type, create_for.
  destruct (isinstance job _PRE_PROVISIONER_SUPPORTED_JOBS) eqn:Hsup; simpl;
    [|by intros ?%elem_of_nil].
  destruct (infer_tpu_type _) as [e|tpu_type] eqn:Hinfer; simpl;
    [by intros ?%elem_of_nil|].
  unfold getitem.
  destruct (USER_FACING_NAME_TO_SYSTEM_CHARACTERISTICS !! tpu_type) as [sp|] eqn:Hcat;
    simpl; [|by intros ?%elem_of_nil].
  destruct (resolve_capacity_cases env
              (TPUReplicatedJob.reservation (Job.builder (Job.config job))))
    as [(_ & _ & ->)|(_ & ->)]; simpl.
  all: pose proof (resolve_job_priority_trace env) as Htr.
  all: destruct (resolve_job_priority env) as [tr [e|prio]]; simpl in Htr; subst tr; simpl.
  all: try by (intros Hin; apply list_elem_of_singleton in Hin || inversion Hin).
  all: intros _; exists sp, prio; eauto 10.
Qed.

(** The run of [delete_for] on a supported job. *)
Lemma delete_for_supported cfg job :
  supported job →
  let d := delete_call_of cfg job in
  delete_for cfg job =
    ((naming_events job ++ DeleteNodePools d ::
        after_call (delete_node_pools d) "Node pool deletion took %s seconds")%list,
     delete_node_pools d).
Proof.
  intros Hsup d. unfold delete_for. unfold supported in Hsup. rewrite Hsup. simpl.
  rewrite for_in_delete_for_body. simpl. subst d.
  unfold delete_call_of, pool_names_of, naming_events, job_num_node_pools.
  match goal with
  | |- context [delete_node_pools ?x] => destruct (delete_node_pools x) as [e|[]]
  end; simpl; by rewrite ?app_nil_r.
Qed.

Lemma delete_calls_supported cfg job :
  supported job →
  delete_calls (trace (delete_for cfg job)) = [delete_call_of cfg job].
Proof.
  intros Hsup. rewrite (delete_for_supported cfg job Hsup). unfold trace, naming_events.
  simpl. rewrite delete_calls_app, delete_calls_naming.
  by destruct (delete_node_pools _).
Qed.

End Runs.

(** ** The capacity class *)

Section Capacity.

Context `{Imports}.

(** What [resolve_capacity] returns, by the tier and the reservation. *)
Lemma resolve_capacity_outcome env (r : option string) fmt use_spot_vm reservation :
  resolve_capacity env r = ([LogInfo fmt], inr (use_spot_vm, reservation)) →
  (env !! "BASTION_TIER" = Some "0" ∧ r ≠ None ∧ use_spot_vm = false ∧ reservation = r)
  ∨ ((env !! "BASTION_TIER" ≠ Some "0" ∨ r = None) ∧ use_spot_vm = true ∧ reservation = None).
Proof.
  intros Hcap.
  destruct (resolve_capacity_cases env r) as [(Ht & Hr & Heq)|(Hor & Heq)];
    rewrite Heq in Hcap; inversion Hcap; subst; [left | right]; done.
Qed.

(** C1. The policy table: for a job that [create_for] accepts, the one call
    of [create_node_pools] has (use_spot_vm=False, reservation=R) when the
    tier is "0" and the job reserves R; (True, None) when the tier is "1"
    and the job has a reservation; (True, None) when the tier is "0" and
    the job has no reservation. *)
Theorem create_for_policy_table cfg env job sp prio :
  accepted env job sp prio →
  ∃ a, create_calls (trace (create_for cfg env job)) = [a] ∧
    (∀ R, env !! "BASTION_TIER" = Some "0" → job_reservation job = Some R →
          CreateCall.use_spot_vm a = false ∧ CreateCall.reservation a = Some R) ∧
    (env !! "BASTION_TIER" = Some "1" → is_Some (job_reservation job) →
          CreateCall.use_spot_vm a = true ∧ CreateCall.reservation a = None) ∧
    (env !! "BASTION_TIER" = Some "0" → job_reservation job = None →
          CreateCall.use_spot_vm a = true ∧ CreateCall.reservation a = None).
Proof.
  intros Hacc.
  destruct (create_calls_accepted cfg env job sp prio Hacc)
    as (fmt & spot & res & Hcap & Hcalls).
  eexists. split; [exact Hcalls|]. simpl.
  apply resolve_capacity_outcome in Hcap.
  split; [|split].
  - intros R Htier HR.
    destruct Hcap as [(_ & _ & -> & ->)|([Hne|Hnone] & _)]; [done| |]; congruence.
  - intros Htier _.
    destruct Hcap as [(Htier0 & _)|(_ & -> & ->)]; [congruence | done].
  - intros _ Hnone.
    destruct Hcap as [(_ & Hsome & _)|(_ & -> & ->)]; [congruence | done].
Qed.

(** With no tier in the environment the default is the integer 0, which is
    not the string "0": the reservation is dropped. *)
Lemma create_for_tier_absent cfg env job sp prio :
  accepted env job sp prio →
  env !! "BASTION_TIER" = None →
  create_calls (trace (create_for cfg env job)) = [create_call_of cfg job sp true None prio].
Proof.
  intros Hacc Htier.
  destruct (create_calls_accepted cfg env job sp prio Hacc)
    as (fmt & spot & res & Hcap & Hcalls).
  apply resolve_capacity_outcome in Hcap.
  destruct Hcap as [(Htier0 & _)|(_ & -> & ->)]; [congruence | exact Hcalls].
Qed.

(** C3. In every call of [create_node_pools] that [create_for] makes,
    whatever the job and the environment, use_spot_vm=True comes with
    reservation=None. *)
Theorem create_for_spot_excludes_reservation cfg env job a :
  a ∈ create_calls (trace (create_for cfg env job)) →
  CreateCall.use_spot_vm a = true →
  CreateCall.reservation a = None.
Proof.
  intros Hin Hspot.
  destruct (create_call_accepted cfg env job a Hin) as (sp & prio & Hacc).
  destruct (create_calls_accepted cfg env job sp prio Hacc)
    as (fmt & spot & res & Hcap & Hcalls).
  rewrite Hcalls in Hin. apply list_elem_of_singleton in Hin. subst a.
  simpl in *. subst spot.
  apply resolve_capacity_outcome in Hcap.
  by destruct Hcap as [(_ & _ & ? & _)|(_ & _ & ->)].
Qed.

End Capacity.

(** ** The digest *)

Section Digest.

Lemma string_length_append (s1 s2 : string) :
  String.length (s1 ++ s2) = (String.length s1 + String.length s2)%nat.
Proof. induction s1 as [|c s1 IH]; simpl; [done | by rewrite IH]. Qed.

Lemma hex_word_length x : String.length (Sha1.hex_word x) = 8%nat.
Proof. reflexivity. Qed.

(** A SHA-1 digest is 160 bits: forty hexadecimal digits. *)
Lemma hexdigest_length msg : String.length (Sha1.hexdigest msg) = 40%nat.
Proof.
  unfold Sha1.hexdigest. cbv zeta.
  by rewrite !string_length_append, !hex_word_length.
Qed.

End Digest.

(** ** Names and labels *)

Section Pools.

Context `{Imports}.

Lemma derived_names_app tr1 tr2 :
  derived_names (tr1 ++ tr2) = (derived_names tr1 ++ derived_names tr2)%list.
Proof. apply omap_app. Qed.

Lemma derived_names_naming ns n (xs : list Z) :
  derived_names (map (ConstructNodePoolName ns n) xs) = map (λ i, (ns, n, i)) xs.
Proof. induction xs as [|x xs IH]; [done | simpl; by f_equal]. Qed.

(** The names derived by an accepted [create_for]: one per index, in order. *)
Lemma derived_names_create_for cfg env job sp prio :
  accepted env job sp prio →
  derived_names (trace (create_for cfg env job)) =
    map (λ i, (Job.namespace (Job.config job), Job.name (Job.config job), i))
        (Py.range (job_num_node_pools job)).
Proof.
  intros Hacc.
  destruct (create_for_accepted cfg env job sp prio Hacc) as (fmt & spot & res & _ & Hrun).
  simpl in Hrun. rewrite Hrun. unfold trace, naming_events. simpl.
  change (derived_names (LogInfo fmt :: ?l)) with (derived_names l).
  rewrite derived_names_app, derived_names_naming.
  destruct (create_node_pools _); simpl; by rewrite app_nil_r.
Qed.

(** The names derived by [delete_for] on a supported job. *)
Lemma derived_names_delete_for cfg job :
  supported job →
  derived_names (trace (delete_for cfg job)) =
    map (λ i, (Job.namespace (Job.config job), Job.name (Job.config job), i))
        (Py.range (job_num_node_pools job)).
Proof.
  intros Hsup. rewrite (delete_for_supported cfg job Hsup). unfold trace, naming_events.
  simpl. rewrite derived_names_app, derived_names_naming.
  destruct (delete_node_pools _); simpl; by rewrite app_nil_r.
Qed.

Lemma pool_names_of_ext job1 job2 :
  Job.namespace (Job.config job1) = Job.namespace (Job.config job2) →
  Job.name (Job.config job1) = Job.name (Job.config job2) →
  job_num_node_pools job1 = job_num_node_pools job2 →
  pool_names_of job1 = pool_names_of job2.
Proof. unfold pool_names_of. by intros -> -> ->. Qed.

(** C4. For jobs with the same namespace, name and number of node pools,
    [create_for] and [delete_for] derive the same names in the same order
    and pass the same list of names to [create_node_pools] and to
    [delete_node_pools]. *)
Theorem create_for_delete_for_same_names cfg1 cfg2 env job1 job2 sp prio :
  accepted env job1 sp prio →
  supported job2 →
  Job.namespace (Job.config job1) = Job.namespace (Job.config job2) →
  Job.name (Job.config job1) = Job.name (Job.config job2) →
  job_num_node_pools job1 = job_num_node_pools job2 →
  derived_names (trace (create_for cfg1 env job1)) =
    derived_names (trace (delete_for cfg2 job2)) ∧
  ∃ a d,
    create_calls (trace (create_for cfg1 env job1)) = [a] ∧
    delete_calls (trace (delete_for cfg2 job2)) = [d] ∧
    CreateCall.node_pool_names a = DeleteCall.node_pool_names d.
Proof.
  intros Hacc Hsup Hns Hname Hnum. split.
  - rewrite (derived_names_create_for cfg1 env job1 sp prio Hacc),
      (derived_names_delete_for cfg2 job2 Hsup).
    by rewrite Hns, Hname, Hnum.
  - destruct (create_calls_accepted cfg1 env job1 sp prio Hacc)
      as (fmt & spot & res & _ & Hcalls).
    eexists _, _. split; [exact Hcalls|].
    split; [exact (delete_calls_supported cfg2 job2 Hsup)|].
    simpl. by apply pool_names_of_ext.
Qed.

Lemma range_lookup (n i : Z) : 0 ≤ i < n → Py.range n !! Z.to_nat i = Some i.
Proof.
  intros Hi. unfold Py.range. rewrite lookup_seqZ_lt by lia. f_equal. lia.
Qed.

Lemma job_key_label job_cfg prio repair i :
  additional_labels_of job_cfg prio repair i !! "job-key" =
    Some (Sha1.hexdigest
            (Py.encode (Job.namespace job_cfg ++ "/" ++ Job.name job_cfg
                          ++ "-job-" ++ Py.str i))).
Proof.
  unfold additional_labels_of. cbv zeta.
  destruct prio, repair; by simplify_map_eq.
Qed.

(** C5. For every index i in [0, num_node_pools), the labels of pool i hold,
    under "job-key", the SHA-1 hex digest (forty hexadecimal digits) of
    "{namespace}/{job_name}-job-{i}". *)
Theorem create_for_job_key cfg env job sp prio i :
  accepted env job sp prio →
  0 ≤ i < job_num_node_pools job →
  let digest :=
    Sha1.hexdigest
      (Py.encode (Job.namespace (Job.config job) ++ "/" ++ Job.name (Job.config job)
                    ++ "-job-" ++ Py.str i)) in
  ∃ a labels,
    create_calls (trace (create_for cfg env job)) = [a] ∧
    CreateCall.additional_labels_list a !! Z.to_nat i = Some labels ∧
    labels !! "job-key" = Some digest ∧
    String.length digest = 40%nat.
Proof.
  intros Hacc Hi digest.
  destruct (create_calls_accepted cfg env job sp prio Hacc)
    as (fmt & spot & res & _ & Hcalls).
  eexists _, _. split; [exact Hcalls|].
  split; [|split].
  - unfold create_call_of, CreateCall.additional_labels_list.
    rewrite list_lookup_fmap, (range_lookup _ _ Hi). reflexivity.
  - apply job_key_label.
  - apply hexdigest_length.
Qed.

End Pools.

Section Labels.

Context `{Imports}.

Lemma auto_restart_label job_cfg prio i :
  additional_labels_of job_cfg prio true i !! "cloud.google.com/gke-tpu-auto-restart" =
    Some "true".
Proof. unfold additional_labels_of. cbv zeta. by simplify_map_eq. Qed.

Lemma job_priority_label job_cfg prio repair i :
  additional_labels_of job_cfg prio repair i !! "job-priority" = Py.str <$> prio.
Proof.
  unfold additional_labels_of. cbv zeta.
  destruct prio, repair; by simplify_map_eq.
Qed.

(** C6. For every pool's labels in the call of [create_node_pools]: when
    the job sets [enable_tpu_smart_repair], they map
    "cloud.google.com/gke-tpu-auto-restart" to "true"; when the job
    descriptor gave the priority p, they map "job-priority" to [str(p)];
    when no priority was resolved, they have no "job-priority" key. There
    is one such mapping per pool. *)
Theorem create_for_label_presence cfg env job sp prio :
  accepted env job sp prio →
  ∃ a, create_calls (trace (create_for cfg env job)) = [a] ∧
    length (CreateCall.additional_labels_list a) = Z.to_nat (job_num_node_pools job) ∧
    ∀ labels : gmap string string,
      labels ∈ CreateCall.additional_labels_list a →
      (job_smart_repair job = true →
         labels !! "cloud.google.com/gke-tpu-auto-restart" = Some "true") ∧
      (∀ p, prio = Some p → labels !! "job-priority" = Some (Py.str p)) ∧
      (prio = None → labels !! "job-priority" = None).
Proof.
  intros Hacc.
  destruct (create_calls_accepted cfg env job sp prio Hacc)
    as (fmt & spot & res & _ & Hcalls).
  eexists. split; [exact Hcalls|].
  unfold create_call_of, CreateCall.additional_labels_list.
  split.
  - unfold Py.range. by rewrite length_map, length_seqZ.
  - intros labels (i & -> & _)%list_elem_of_fmap.
    split; [|split].
    + intros ->. apply auto_restart_label.
    + intros p ->. by rewrite job_priority_label.
    + intros ->. by rewrite job_priority_label.
Qed.

(** C7. The topology passed to [create_node_pools] is [None] for an
    inference job and the topology of the job's catalog entry otherwise. *)
Theorem create_for_topology cfg env job sp prio :
  accepted env job sp prio →
  ∃ a, create_calls (trace (create_for cfg env job)) = [a] ∧
    (isinstance job _INFERENCE_JOBS = true → CreateCall.topology a = None) ∧
    (isinstance job _INFERENCE_JOBS = false →
       CreateCall.topology a = Some (SystemCharacteristics.topology sp)).
Proof.
  intros Hacc.
  destruct (create_calls_accepted cfg env job sp prio Hacc)
    as (fmt & spot & res & _ & Hcalls).
  eexists. split; [exact Hcalls|].
  unfold create_call_of, CreateCall.topology.
  split; by intros ->.
Qed.

End Labels.

(** ** Rejected requests *)

Section Rejections.

Context `{Imports}.

(** C8. When the accelerator type of a supported job is not in the catalog,
    [create_for] raises [KeyError] at the lookup with an empty trace: no
    pool name was derived and no control-plane call was made. *)
Theorem create_for_unknown_accelerator cfg env job tpu_type :
  supported job →
  infer_tpu_type (job_instance_type job) = inr tpu_type →
  USER_FACING_NAME_TO_SYSTEM_CHARACTERISTICS !! tpu_type = None →
  create_for cfg env job = ([], inl (KeyError tpu_type)) ∧
  derived_names (trace (create_for cfg env job)) = [] ∧
  create_calls (trace (create_for cfg env job)) = [].
Proof.
  intros Hsup Hinfer Hcat.
  assert (create_for cfg env job = ([], inl (KeyError tpu_type))) as ->; [|done].
  unfold create_for. unfold supported in Hsup. rewrite Hsup. simpl.
  unfold job_instance_type in Hinfer. rewrite Hinfer. unfold lift, getitem. simpl.
  by rewrite Hcat.
Qed.

(** C9. On a job that is not an instance of a supported class, [create_for]
    and [delete_for] both raise [TypeError] with an empty trace: no pool
    name was derived and no control-plane call was made. *)
Theorem unsupported_job_rejected cfg env job :
  isinstance job _PRE_PROVISIONER_SUPPORTED_JOBS = false →
  create_for cfg env job = ([], inl TypeError) ∧
  delete_for cfg job = ([], inl TypeError).
Proof. intros Hno. unfold create_for, delete_for. by rewrite Hno. Qed.

End Rejections.

(** ** Deletion *)

(** C10. The names [delete_for] passes to [delete_node_pools] are a function
    of the job's namespace, name and number of node pools alone: two runs on
    supported jobs that agree on these, under any two installations that
    share [construct_node_pool_name] (whatever their catalogs, accelerator
    types, reservations, flags and control planes; [delete_for] reads no
    environment), pass the same names. No catalog entry is needed. *)
Theorem delete_for_names_by_identity (I1 I2 : Imports) cfg1 cfg2 job1 job2 :
  @construct_node_pool_name I1 = @construct_node_pool_name I2 →
  supported job1 →
  supported job2 →
  Job.namespace (Job.config job1) = Job.namespace (Job.config job2) →
  Job.name (Job.config job1) = Job.name (Job.config job2) →
  job_num_node_pools job1 = job_num_node_pools job2 →
  ∃ d1 d2,
    delete_calls (trace (delete_for (H:=I1) cfg1 job1)) = [d1] ∧
    delete_calls (trace (delete_for (H:=I2) cfg2 job2)) = [d2] ∧
    DeleteCall.node_pool_names d1 = DeleteCall.node_pool_names d2 ∧
    DeleteCall.node_pool_names d1 =
      map (@construct_node_pool_name I1 (Job.namespace (Job.config job1))
             (Job.name (Job.config job1)))
          (Py.range (job_num_node_pools job1)).
Proof.
  intros Hname Hsup1 Hsup2 Hns Hn Hnum.
  eexists _, _.
  split; [exact (delete_calls_supported (H:=I1) cfg1 job1 Hsup1)|].
  split; [exact (delete_calls_supported (H:=I2) cfg2 job2 Hsup2)|].
  split; [|reflexivity].
  simpl. unfold pool_names_of. by rewrite Hname, Hns, Hn, Hnum.
Qed.

(** ** The properties on the sample installation *)

Section OnSample.

#[local] Existing Instance Sample.imports.

(** Acceptance of a sample job, by running the checks of [accepted]. *)
Ltac sample_accepted tpu_type :=
  split; [reflexivity | split; [exists tpu_type; split | ]; vm_compute; reflexivity].

Lemma create_for_policy_table_witness :
  accepted (Sample.tier "0") Sample.training Sample.entry None ∧
  ∃ a, create_calls (trace (create_for Sample.cfg (Sample.tier "0") Sample.training)) = [a] ∧
       CreateCall.use_spot_vm a = false ∧ CreateCall.reservation a = Some "resA".
Proof.
  assert (accepted (Sample.tier "0") Sample.training Sample.entry None) as Hacc
    by sample_accepted "v5litepod-16".
  split; [exact Hacc|].
  destruct (create_for_policy_table Sample.cfg _ _ _ _ Hacc) as (a & Hcalls & Hrow & _).
  exists a. split; [exact Hcalls|].
  apply (Hrow "resA"); vm_compute; reflexivity.
Defined.

(** C2. With "BASTION_TIER" unset, a job that reserves "resA" is given spot
    capacity and no reservation. *)
Theorem create_for_absent_tier_discards_reservation :
  (∅ : Py.environ) !! "BASTION_TIER" = None ∧
  job_reservation Sample.training = Some "resA" ∧
  ∃ a, create_calls (trace (create_for Sample.cfg ∅ Sample.training)) = [a] ∧
       CreateCall.use_spot_vm a = true ∧ CreateCall.reservation a = None.
Proof.
  split; [reflexivity|]. split; [reflexivity|].
  exists (create_call_of Sample.cfg Sample.training Sample.entry true None None).
  split; [|split; reflexivity].
  apply (create_for_tier_absent Sample.cfg ∅ Sample.training Sample.entry None);
    [sample_accepted "v5litepod-16" | reflexivity].
Qed.

Lemma create_for_spot_excludes_reservation_witness :
  ∃ a, a ∈ create_calls (trace (create_for Sample.cfg (Sample.tier "1") Sample.training)) ∧
       CreateCall.use_spot_vm a = true ∧ CreateCall.reservation a = None.
Proof.
  exists (create_call_of Sample.cfg Sample.training Sample.entry true None None).
  assert (create_call_of Sample.cfg Sample.training Sample.entry true None None
            ∈ create_calls (trace (create_for Sample.cfg (Sample.tier "1") Sample.training)))
    as Hin by (vm_compute; apply list_elem_of_here).
  split; [exact Hin|]. split; [reflexivity|].
  apply (create_for_spot_excludes_reservation Sample.cfg _ _ _ Hin). reflexivity.
Defined.

Lemma create_for_delete_for_same_names_witness :
  accepted (Sample.tier "0") Sample.training Sample.entry None ∧
  supported Sample.unknown_type ∧
  ∃ a d,
    create_calls (trace (create_for Sample.cfg (Sample.tier "0") Sample.training)) = [a] ∧
    delete_calls (trace (delete_for Sample.cfg Sample.unknown_type)) = [d] ∧
    CreateCall.node_pool_names a = DeleteCall.node_pool_names d.
Proof.
  assert (accepted (Sample.tier "0") Sample.training Sample.entry None) as Hacc
    by sample_accepted "v5litepod-16".
  split; [exact Hacc|]. split; [reflexivity|].
  apply (create_for_delete_for_same_names Sample.cfg Sample.cfg (Sample.tier "0")
           Sample.training Sample.unknown_type Sample.entry None Hacc); reflexivity.
Defined.

Lemma create_for_job_key_witness :
  accepted (Sample.tier "0") Sample.training Sample.entry None ∧
  ∃ a labels,
    create_calls (trace (create_for Sample.cfg (Sample.tier "0") Sample.training)) = [a] ∧
    CreateCall.additional_labels_list a !! 1%nat = Some labels ∧
    labels !! "job-key" = Some "30b8480fb529c37afeb66a147f35122ae746764c".
Proof.
  assert (accepted (Sample.tier "0") Sample.training Sample.entry None) as Hacc
    by sample_accepted "v5litepod-16".
  split; [exact Hacc|].
  destruct (create_for_job_key Sample.cfg _ _ _ _ 1 Hacc) as (a & labels & Hc & Hl & Hk & _);
    [vm_compute; split; [discriminate | reflexivity]|].
  exists a, labels. split; [exact Hc|]. split; [exact Hl|].
  rewrite Hk. vm_compute. reflexivity.
Defined.

Lemma create_for_label_presence_witness :
  accepted (Sample.tier_and_spec "1" "7") Sample.training Sample.entry (Some 7) ∧
  ∃ a,
    create_calls
      (trace (create_for Sample.cfg (Sample.tier_and_spec "1" "7") Sample.training)) = [a] ∧
    ∀ labels : gmap string string,
      labels ∈ CreateCall.additional_labels_list a →
      labels !! "cloud.google.com/gke-tpu-auto-restart" = Some "true" ∧
      labels !! "job-priority" = Some "7".
Proof.
  assert (accepted (Sample.tier_and_spec "1" "7") Sample.training Sample.entry (Some 7))
    as Hacc by sample_accepted "v5litepod-16".
  split; [exact Hacc|].
  destruct (create_for_label_presence Sample.cfg _ _ _ _ Hacc) as (a & Hc & _ & Hall).
  exists a. split; [exact Hc|].
  intros labels Hin. destruct (Hall labels Hin) as (Hrepair & Hprio & _).
  split; [by apply Hrepair | by apply (Hprio 7)].
Defined.

Lemma create_for_topology_witness :
  accepted (Sample.tier "0") Sample.inference Sample.entry None ∧
  ∃ a, create_calls (trace (create_for Sample.cfg (Sample.tier "0") Sample.inference)) = [a] ∧
       CreateCall.topology a = None.
Proof.
  assert (accepted (Sample.tier "0") Sample.inference Sample.entry None) as Hacc
    by sample_accepted "v5litepod-16".
  split; [exact Hacc|].
  destruct (create_for_topology Sample.cfg _ _ _ _ Hacc) as (a & Hc & Hinf & _).
  exists a. split; [exact Hc|]. by apply Hinf.
Defined.

Lemma create_for_unknown_accelerator_witness :
  supported Sample.unknown_type ∧
  infer_tpu_type (job_instance_type Sample.unknown_type) = inr "v9-8" ∧
  USER_FACING_NAME_TO_SYSTEM_CHARACTERISTICS !! "v9-8" = None ∧
  create_for Sample.cfg (Sample.tier "0") Sample.unknown_type = ([], inl (KeyError "v9-8")).
Proof.
  assert (supported Sample.unknown_type) as Hsup by reflexivity.
  assert (infer_tpu_type (job_instance_type Sample.unknown_type) = inr "v9-8") as Hinfer
    by reflexivity.
  assert (USER_FACING_NAME_TO_SYSTEM_CHARACTERISTICS !! "v9-8" = None) as Hcat
    by (vm_compute; reflexivity).
  split; [exact Hsup|]. split; [exact Hinfer|]. split; [exact Hcat|].
  apply (create_for_unknown_accelerator Sample.cfg (Sample.tier "0") _ _ Hsup Hinfer Hcat).
Defined.

Lemma unsupported_job_rejected_witness :
  isinstance Sample.unsupported _PRE_PROVISIONER_SUPPORTED_JOBS = false ∧
  create_for Sample.cfg (Sample.tier "0") Sample.unsupported = ([], inl TypeError) ∧
  delete_for Sample.cfg Sample.unsupported = ([], inl TypeError).
Proof.
  split; [reflexivity|].
  apply (unsupported_job_rejected Sample.cfg (Sample.tier "0") Sample.unsupported).
  reflexivity.
Defined.

End OnSample.

Lemma delete_for_names_by_identity_witness :
  @USER_FACING_NAME_TO_SYSTEM_CHARACTERISTICS Sample.bare !! "v9-8" = None ∧
  ∃ d1 d2,
    delete_calls (trace (delete_for (H:=Sample.imports) Sample.cfg Sample.training)) = [d1] ∧
    delete_calls (trace (delete_for (H:=Sample.bare) Sample.cfg Sample.unknown_type)) = [d2] ∧
    DeleteCall.node_pool_names d1 = DeleteCall.node_pool_names d2 ∧
    DeleteCall.node_pool_names d1 = ["ns1-job1-0"; "ns1-job1-1"].
Proof.
  split; [reflexivity|].
  destruct (delete_for_names_by_identity Sample.imports Sample.bare Sample.cfg Sample.cfg
              Sample.training Sample.unknown_type)
    as (d1 & d2 & H1 & H2 & Heq & Hnames); try reflexivity.
  exists d1, d2. split; [exact H1|]. split; [exact H2|]. split; [exact Heq|].
  rewrite Hnames. reflexivity.
Defined.

(** ** Further properties of [create_for] *)

Section CreateRuns.

Context `{Imports}.

(** A run of [create_for] that is not accepted derives no name and makes no
    control-plane call. *)
Lemma create_for_not_accepted cfg env job :
  (∃ sp prio, accepted env job sp prio) ∨
  (derived_names (trace (create_for cfg env job)) = [] ∧
   create_calls (trace (create_for cfg env job)) = [] ∧
   delete_calls (trace (create_for cfg env job)) = [] ∧
   ∃ e, outcome (create_for cfg env job) = inl e).
Proof.
  unfold accepted, supported, job_instance_type, create_for.
  destruct (isinstance job _PRE_PROVISIONER_SUPPORTED_JOBS) eqn:Hsup; simpl;
    [|right; eauto].
  destruct (infer_tpu_type _) as [e|tpu_type] eqn:Hinfer; simpl; [right; eauto|].
  unfold getitem.
  destruct (USER_FACING_NAME_TO_SYSTEM_CHARACTERISTICS !! tpu_type) as [sp|] eqn:Hcat;
    simpl; [|right; eauto].
  destruct (resolve_capacity_cases env
              (TPUReplicatedJob.reservation (Job.builder (Job.config job))))
    as [(_ & _ & ->)|(_ & ->)]; simpl.
  all: pose proof (resolve_job_priority_trace env) as Htr.
  all: destruct (resolve_job_priority env) as [tr [e|prio]]; simpl in Htr; subst tr; simpl.
  all: first [right; by eauto | left; exists sp, prio; by eauto 10].
Qed.

(** X1. For an accepted job the capacity class is decided by one test: the
    call has use_spot_vm=False exactly when "BASTION_TIER" is the string "0"
    and the job has a reservation; the reservation passed is the job's in
    that case and [None] in every other. *)
Theorem create_for_capacity_decision cfg env job sp prio :
  accepted env job sp prio →
  ∃ a, create_calls (trace (create_for cfg env job)) = [a] ∧
    (CreateCall.use_spot_vm a = false ↔
       env !! "BASTION_TIER" = Some "0" ∧ is_Some (job_reservation job)) ∧
    CreateCall.reservation a =
      (if CreateCall.use_spot_vm a then None else job_reservation job).
Proof.
  intros Hacc.
  destruct (create_calls_accepted cfg env job sp prio Hacc)
    as (fmt & spot & res & Hcap & Hcalls).
  eexists. split; [exact Hcalls|]. simpl.
  apply resolve_capacity_outcome in Hcap.
  destruct Hcap as [(Htier & Hres & -> & ->)|(Hor & -> & ->)].
  - split; [|done]. split; [intros _|done].
    split; [done|]. by destruct (job_reservation job).
  - split; [|done]. split; [done|].
    intros [Htier [R HR]]. destruct Hor as [Hne|Hnone]; congruence.
Qed.


(** X3. [create_for] never calls [delete_node_pools] and calls
    [create_node_pools] at most once. *)
Theorem create_for_one_create_no_delete cfg env job :
  delete_calls (trace (create_for cfg env job)) = [] ∧
  (length (create_calls (trace (create_for cfg env job))) ≤ 1)%nat.
Proof.
  destruct (create_for_not_accepted cfg env job) as [(sp & prio & Hacc)|Hrej].
  - destruct (create_calls_accepted cfg env job sp prio Hacc)
      as (fmt & spot & res & _ & ->).
    split; [|done].
    destruct (create_for_accepted cfg env job sp prio Hacc) as (fmt' & spot' & res' & _ & Hrun).
    simpl in Hrun. rewrite Hrun. unfold trace, naming_events. simpl.
    change (delete_calls (LogInfo fmt' :: ?l)) with (delete_calls l).
    rewrite delete_calls_app, delete_calls_naming.
    by destruct (create_node_pools _).
  - destruct Hrej as (_ & -> & -> & _). split; [done | simpl; lia].
Qed.


(** X5. The call of an accepted run carries the machine shape of the catalog
    entry (also for inference jobs), the provisioner's configuration, and the
    job's location hint and ICI-resiliency flag, whatever the capacity class. *)
Theorem create_for_call_fields cfg env job sp prio :
  accepted env job sp prio →
  ∃ a, create_calls (trace (create_for cfg env job)) = [a] ∧
    CreateCall.num_nodes_per_pool a = SystemCharacteristics.vms_per_slice sp ∧
    CreateCall.machine_type a = SystemCharacteristics.gce_machine_type sp ∧
    CreateCall.project a = Provisioner.project cfg ∧
    CreateCall.zone a = Provisioner.zone cfg ∧
    CreateCall.cluster a = Provisioner.cluster cfg ∧
    CreateCall.pre_provisioner_id a = Provisioner.name cfg ∧
    CreateCall.service_account_email a = Provisioner.service_account_email cfg ∧
    CreateCall.retry_interval a = Provisioner.retry_interval cfg ∧
    CreateCall.wait_timeout a = Provisioner.wait_timeout cfg ∧
    CreateCall.location_hint a =
      TPUReplicatedJob.location_hint (Job.builder (Job.config job)) ∧
    CreateCall.enable_tpu_ici_resiliency a =
      TPUReplicatedJob.enable_tpu_ici_resiliency (Job.builder (Job.config job)).
Proof.
  intros Hacc.
  destruct (create_calls_accepted cfg env job sp prio Hacc)
    as (fmt & spot & res & _ & Hcalls).
  eexists. split; [exact Hcalls|]. by repeat split.
Qed.

(** X6. Names and labels are aligned: the call has one name and one label
    mapping per index below [num_replicas], and the name at position i is
    [construct_node_pool_name(namespace, name, i)]. *)
Theorem create_for_pool_alignment cfg env job sp prio :
  accepted env job sp prio →
  ∃ a, create_calls (trace (create_for cfg env job)) = [a] ∧
    length (CreateCall.node_pool_names a) = Z.to_nat (job_num_node_pools job) ∧
    length (CreateCall.additional_labels_list a) = Z.to_nat (job_num_node_pools job) ∧
    ∀ i, 0 ≤ i < job_num_node_pools job →
      CreateCall.node_pool_names a !! Z.to_nat i =
        Some (construct_node_pool_name (Job.namespace (Job.config job))
                (Job.name (Job.config job)) i).
Proof.
  intros Hacc.
  destruct (create_calls_accepted cfg env job sp prio Hacc)
    as (fmt & spot & res & _ & Hcalls).
  eexists. split; [exact Hcalls|].
  unfold create_call_of, pool_names_of, CreateCall.node_pool_names,
    CreateCall.additional_labels_list, Py.range.
  rewrite !length_map, !length_seqZ.
  split; [done|]. split; [done|].
  intros i Hi. rewrite list_lookup_fmap.
  fold (Py.range (job_num_node_pools job)). by rewrite (range_lookup _ _ Hi).
Qed.

(** X7. A replica count of zero or less is not rejected: an accepted job
    derives no name and still calls [create_node_pools], with no names and no
    labels. *)
Theorem create_for_no_replicas cfg env job sp prio :
  accepted env job sp prio →
  (job_num_node_pools job ≤ 0)%Z →
  derived_names (trace (create_for cfg env job)) = [] ∧
  ∃ a, create_calls (trace (create_for cfg env job)) = [a] ∧
    CreateCall.node_pool_names a = [] ∧
    CreateCall.additional_labels_list a = [].
Proof.
  intros Hacc Hn. split.
  - rewrite (derived_names_create_for cfg env job sp prio Hacc).
    unfold Py.range. by rewrite seqZ_nil.
  - destruct (create_calls_accepted cfg env job sp prio Hacc)
      as (fmt & spot & res & _ & Hcalls).
    eexists. split; [exact Hcalls|].
    unfold create_call_of, pool_names_of, CreateCall.node_pool_names,
      CreateCall.additional_labels_list, Py.range.
    by rewrite seqZ_nil.
Qed.

(** X8. An exception of [infer_tpu_type] on a supported job leaves
    [create_for] with that exception and an empty trace: nothing was logged,
    named or requested. *)
Theorem create_for_infer_error cfg env job e :
  supported job →
  infer_tpu_type (job_instance_type job) = inl e →
  create_for cfg env job = ([], inl e).
Proof.
  intros Hsup Hinfer. unfold create_for. unfold supported in Hsup. rewrite Hsup. simpl.
  unfold job_instance_type in Hinfer. by rewrite Hinfer.
Qed.

(** X9. An exception of [deserialize_jobspec] on a non-empty job descriptor
    leaves [create_for] with that exception after the capacity class was
    logged and before any name is derived or any call is made. *)
Theorem create_for_descriptor_error cfg env job tpu_type sp c s e :
  supported job →
  infer_tpu_type (job_instance_type job) = inr tpu_type →
  USER_FACING_NAME_TO_SYSTEM_CHARACTERISTICS !! tpu_type = Some sp →
  env !! _BASTION_SERIALIZED_JOBSPEC_ENV_VAR = Some (String c s) →
  deserialize_jobspec (String c s) = inl e →
  ∃ fmt, create_for cfg env job = ([LogInfo fmt], inl e).
Proof.
  intros Hsup Hinfer Hcat Henv Hspec.
  unfold create_for. unfold supported in Hsup. rewrite Hsup. simpl.
  unfold job_instance_type in Hinfer. rewrite Hinfer. unfold lift, getitem. simpl.
  rewrite Hcat. simpl.
  pose proof (resolve_job_priority_cases env) as Hprio. rewrite Henv, Hspec in Hprio.
  destruct (resolve_capacity_cases env
              (TPUReplicatedJob.reservation (Job.builder (Job.config job))))
    as [(_ & _ & ->)|(_ & ->)]; simpl; rewrite Hprio; eauto.
Qed.

(** X10. A job descriptor that is unset or the empty string is not
    deserialized: the job is accepted whatever [deserialize_jobspec] would
    do, and no pool gets a "job-priority" label. *)
Theorem create_for_no_descriptor cfg env job tpu_type sp :
  supported job →
  infer_tpu_type (job_instance_type job) = inr tpu_type →
  USER_FACING_NAME_TO_SYSTEM_CHARACTERISTICS !! tpu_type = Some sp →
  env !! _BASTION_SERIALIZED_JOBSPEC_ENV_VAR = None ∨
    env !! _BASTION_SERIALIZED_JOBSPEC_ENV_VAR = Some EmptyString →
  ∃ a, create_calls (trace (create_for cfg env job)) = [a] ∧
    ∀ labels : gmap string string,
      labels ∈ CreateCall.additional_labels_list a → labels !! "job-priority" = None.
Proof.
  intros Hsup Hinfer Hcat Henv.
  assert (accepted env job sp None) as Hacc.
  { split; [exact Hsup|]. split; [eauto|].
    pose proof (resolve_job_priority_cases env) as Hprio.
    destruct Henv as [Henv|Henv]; rewrite Henv in Hprio; by rewrite Hprio. }
  destruct (create_calls_accepted cfg env job sp None Hacc)
    as (fmt & spot & res & _ & Hcalls).
  eexists. split; [exact Hcalls|].
  unfold create_call_of, CreateCall.additional_labels_list.
  intros labels (i & -> & _)%list_elem_of_fmap.
  apply job_priority_label.
Qed.

End CreateRuns.

(** ** Further properties of the labels *)

Section LabelFacts.

Lemma string_append_assoc (s1 s2 s3 : string) : (s1 ++ s2) ++ s3 = s1 ++ (s2 ++ s3).
Proof. induction s1 as [|c s1 IH]; [done | exact (f_equal (String c) IH)]. Qed.

Lemma list_ascii_of_string_append (s1 s2 : string) :
  list_ascii_of_string (s1 ++ s2) = (list_ascii_of_string s1 ++ list_ascii_of_string s2)%list.
Proof. induction s1 as [|c s1 IH]; [done | exact (f_equal (cons c) IH)]. Qed.

(** [str] of an integer determines the integer. *)
Lemma str_inj (a b : Z) : Py.str a = Py.str b → a = b.
Proof.
  unfold Py.str. intros Heq.
  assert (∀ z, NilZero.int_of_string (NilZero.string_of_int (Z.to_int z)) = Some (Z.to_int z))
    as Hround.
  { intros z. apply NilZero.isi; destruct z as [|p|p]; simpl; try discriminate;
      intros [= Hnil]; by apply (DecimalPos.Unsigned.to_uint_nonnil p). }
  apply (f_equal NilZero.int_of_string) in Heq. rewrite !Hround in Heq.
  injection Heq as Heq. apply (f_equal Z.of_int) in Heq.
  by rewrite !DecimalZ.of_to in Heq.
Qed.

Lemma hex_digit_lower n : is_lower_hex (Sha1.hex_digit n) = true.
Proof.
  unfold Sha1.hex_digit.
  assert (Z.to_nat (n mod 16) < 16)%nat as Hlt
    by (pose proof (Z.mod_pos_bound n 16); lia).
  revert Hlt. generalize (Z.to_nat (n mod 16)). intros k Hlt.
  do 16 (destruct k as [|k]; [reflexivity|]). lia.
Qed.

Lemma hex_word_lower x :
  Forall (λ c, is_lower_hex c = true) (list_ascii_of_string (Sha1.hex_word x)).
Proof.
  unfold Sha1.hex_word. rewrite list_ascii_of_string_of_list_ascii.
  apply Forall_forall. intros c (i & -> & _)%list_elem_of_fmap. apply hex_digit_lower.
Qed.

Lemma hexdigest_lower msg :
  Forall (λ c, is_lower_hex c = true) (list_ascii_of_string (Sha1.hexdigest msg)).
Proof.
  unfold Sha1.hexdigest. cbv zeta. rewrite !list_ascii_of_string_append.
  repeat apply Forall_app_2; apply hex_word_lower.
Qed.

Lemma additional_labels_dom job_cfg (prio : option Z) (repair : bool) i :
  dom (additional_labels_of job_cfg prio repair i) =
    ({[ "job-key" ]} ∪ (match prio with Some _ => {[ "job-priority" ]} | None => ∅ end)
       ∪ (if repair then {[ "cloud.google.com/gke-tpu-auto-restart" ]} else ∅) : gset string).
Proof.
  unfold additional_labels_of. cbv zeta.
  destruct prio, repair; rewrite ?dom_insert_L, dom_singleton_L; set_solver.
Qed.

Lemma additional_labels_other job_cfg prio repair i j (k : string) :
  k ≠ "job-key" →
  additional_labels_of job_cfg prio repair i !! k =
    additional_labels_of job_cfg prio repair j !! k.
Proof.
  intros Hk. unfold additional_labels_of. cbv zeta.
  destruct prio, repair;
    repeat (rewrite !lookup_insert; case_decide; [done|]);
    by rewrite !lookup_singleton_ne.
Qed.

End LabelFacts.

Section PoolLabels.

Context `{Imports}.

(** X11. The keys of every pool's labels are exactly: "job-key"; "job-priority"
    when a priority was resolved; "cloud.google.com/gke-tpu-auto-restart"
    when [enable_tpu_smart_repair] is set. In particular a job without smart
    repair gets no auto-restart label. *)
Theorem create_for_label_keys cfg env job sp prio :
  accepted env job sp prio →
  ∃ a, create_calls (trace (create_for cfg env job)) = [a] ∧
    ∀ labels : gmap string string,
      labels ∈ CreateCall.additional_labels_list a →
      dom labels =
        ({[ "job-key" ]} ∪ (match prio with Some _ => {[ "job-priority" ]} | None => ∅ end)
           ∪ (if job_smart_repair job
              then {[ "cloud.google.com/gke-tpu-auto-restart" ]} else ∅) : gset string).
Proof.
  intros Hacc.
  destruct (create_calls_accepted cfg env job sp prio Hacc)
    as (fmt & spot & res & _ & Hcalls).
  eexists. split; [exact Hcalls|].
  unfold create_call_of, CreateCall.additional_labels_list.
  intros labels (i & -> & _)%list_elem_of_fmap. apply additional_labels_dom.
Qed.

(** X12. The pools of one call differ in their labels by "job-key" only:
    under every other key any two pools have the same entry. *)
Theorem create_for_labels_differ_by_job_key cfg env job sp prio :
  accepted env job sp prio →
  ∃ a, create_calls (trace (create_for cfg env job)) = [a] ∧
    ∀ (l1 l2 : gmap string string) (k : string),
      l1 ∈ CreateCall.additional_labels_list a →
      l2 ∈ CreateCall.additional_labels_list a →
      k ≠ "job-key" → l1 !! k = l2 !! k.
Proof.
  intros Hacc.
  destruct (create_calls_accepted cfg env job sp prio Hacc)
    as (fmt & spot & res & _ & Hcalls).
  eexists. split; [exact Hcalls|].
  unfold create_call_of, CreateCall.additional_labels_list.
  intros l1 l2 k (i & -> & _)%list_elem_of_fmap (j & -> & _)%list_elem_of_fmap Hk.
  by apply additional_labels_other.
Qed.

(** X13. The "job-key" value of every pool is forty characters, each a digit
    or a letter from a to f. *)
Theorem create_for_job_key_charset cfg env job sp prio :
  accepted env job sp prio →
  ∃ a, create_calls (trace (create_for cfg env job)) = [a] ∧
    ∀ labels : gmap string string,
      labels ∈ CreateCall.additional_labels_list a →
      ∃ digest, labels !! "job-key" = Some digest ∧
        String.length digest = 40%nat ∧
        Forall (λ c, is_lower_hex c = true) (list_ascii_of_string digest).
Proof.
  intros Hacc.
  destruct (create_calls_accepted cfg env job sp prio Hacc)
    as (fmt & spot & res & _ & Hcalls).
  eexists. split; [exact Hcalls|].
  unfold create_call_of, CreateCall.additional_labels_list.
  intros labels (i & -> & _)%list_elem_of_fmap.
  eexists. split; [apply job_key_label|].
  split; [apply hexdigest_length | apply hexdigest_lower].
Qed.

(** X14. Two namespace and name pairs that read the same once joined by "/"
    get the same "job-key" at every index: a job named nm in namespace
    ns/r and a job named r/nm in namespace ns. *)
Theorem create_for_job_key_joined cfg1 cfg2 env1 env2 job1 job2 sp1 sp2 prio1 prio2 ns r nm :
  accepted env1 job1 sp1 prio1 →
  accepted env2 job2 sp2 prio2 →
  Job.namespace (Job.config job1) = ns ++ "/" ++ r →
  Job.name (Job.config job1) = nm →
  Job.namespace (Job.config job2) = ns →
  Job.name (Job.config job2) = r ++ "/" ++ nm →
  ∃ a1 a2,
    create_calls (trace (create_for cfg1 env1 job1)) = [a1] ∧
    create_calls (trace (create_for cfg2 env2 job2)) = [a2] ∧
    ∀ (i : nat) (l1 l2 : gmap string string),
      CreateCall.additional_labels_list a1 !! i = Some l1 →
      CreateCall.additional_labels_list a2 !! i = Some l2 →
      is_Some (l1 !! "job-key") ∧ l1 !! "job-key" = l2 !! "job-key".
Proof.
  intros Hacc1 Hacc2 Hns1 Hn1 Hns2 Hn2.
  destruct (create_calls_accepted cfg1 env1 job1 sp1 prio1 Hacc1)
    as (fmt1 & spot1 & res1 & _ & Hcalls1).
  destruct (create_calls_accepted cfg2 env2 job2 sp2 prio2 Hacc2)
    as (fmt2 & spot2 & res2 & _ & Hcalls2).
  eexists _, _. split; [exact Hcalls1|]. split; [exact Hcalls2|].
  unfold create_call_of, CreateCall.additional_labels_list.
  intros i l1 l2. rewrite !list_lookup_fmap.
  intros Hl1 Hl2.
  apply fmap_Some in Hl1 as (x1 & Hx1 & ->). apply fmap_Some in Hl2 as (x2 & Hx2 & ->).
  apply lookup_seqZ in Hx1 as [-> _]. apply lookup_seqZ in Hx2 as [-> _].
  rewrite !job_key_label. split; [eauto|].
  rewrite Hns1, Hn1, Hns2, Hn2. by rewrite !string_append_assoc.
Qed.

(** X15. The "job-priority" label determines the priority: pools of two
    accepted runs with the same "job-priority" entry had the same priority. *)
Theorem create_for_priority_label_inj cfg1 cfg2 env1 env2 job1 job2 sp1 sp2 p1 p2 :
  accepted env1 job1 sp1 (Some p1) →
  accepted env2 job2 sp2 (Some p2) →
  ∃ a1 a2,
    create_calls (trace (create_for cfg1 env1 job1)) = [a1] ∧
    create_calls (trace (create_for cfg2 env2 job2)) = [a2] ∧
    ∀ l1 l2 : gmap string string,
      l1 ∈ CreateCall.additional_labels_list a1 →
      l2 ∈ CreateCall.additional_labels_list a2 →
      l1 !! "job-priority" = l2 !! "job-priority" → p1 = p2.
Proof.
  intros Hacc1 Hacc2.
  destruct (create_calls_accepted cfg1 env1 job1 sp1 _ Hacc1)
    as (fmt1 & spot1 & res1 & _ & Hcalls1).
  destruct (create_calls_accepted cfg2 env2 job2 sp2 _ Hacc2)
    as (fmt2 & spot2 & res2 & _ & Hcalls2).
  eexists _, _. split; [exact Hcalls1|]. split; [exact Hcalls2|].
  unfold create_call_of, CreateCall.additional_labels_list.
  intros l1 l2 (i & -> & _)%list_elem_of_fmap (j & -> & _)%list_elem_of_fmap.
  rewrite !job_priority_label. simpl. intros [= Heq]. by apply str_inj.
Qed.

End PoolLabels.

(** ** Further properties of [delete_for] and of the two together *)

Section DeleteRuns.

Context `{Imports}.

Lemma delete_for_unsupported cfg job :
  ¬ supported job → delete_for cfg job = ([], inl TypeError).
Proof.
  unfold supported, delete_for. intros Hno.
  by destruct (isinstance job _PRE_PROVISIONER_SUPPORTED_JOBS).
Qed.

(** X16. The run of [delete_for] on a supported job: the names derived for
    indices 0, 1, ... in order, then one call of [delete_node_pools] on the
    provisioner's project, zone and cluster with its retry interval and
    timeout. When the call raises, [delete_for] raises the same exception and
    logs nothing; when it returns, the elapsed-time line is logged. *)
Theorem delete_for_run_order cfg job :
  supported job →
  ∃ d,
    delete_calls (trace (delete_for cfg job)) = [d] ∧
    DeleteCall.project d = Provisioner.project cfg ∧
    DeleteCall.zone d = Provisioner.zone cfg ∧
    DeleteCall.cluster d = Provisioner.cluster cfg ∧
    DeleteCall.retry_interval d = Provisioner.retry_interval cfg ∧
    DeleteCall.wait_timeout d = Provisioner.wait_timeout cfg ∧
    (∀ e, delete_node_pools d = inl e →
       delete_for cfg job = ((naming_events job ++ [DeleteNodePools d])%list, inl e)) ∧
    (delete_node_pools d = inr () →
       delete_for cfg job =
         ((naming_events job ++
             [DeleteNodePools d; LogInfo "Node pool deletion took %s seconds"])%list,
          inr ())).
Proof.
  intros Hsup. exists (delete_call_of cfg job).
  split; [exact (delete_calls_supported cfg job Hsup)|].
  do 5 (split; [reflexivity|]).
  pose proof (delete_for_supported cfg job Hsup) as Hrun. simpl in Hrun.
  split.
  - intros e He. rewrite Hrun, He. reflexivity.
  - intros Hok. rewrite Hrun, Hok. reflexivity.
Qed.

(** X17. [delete_for] never calls [create_node_pools], and it calls
    [delete_node_pools] once on a supported job and not at all on any
    other. *)
Theorem delete_for_one_delete_no_create cfg job :
  create_calls (trace (delete_for cfg job)) = [] ∧
  (length (delete_calls (trace (delete_for cfg job))) ≤ 1)%nat ∧
  (delete_calls (trace (delete_for cfg job)) ≠ [] ↔ supported job).
Proof.
  destruct (decide (supported job)) as [Hsup|Hno].
  - rewrite (delete_calls_supported cfg job Hsup).
    split; [|split; [done | by split]].
    rewrite (delete_for_supported cfg job Hsup). unfold trace, naming_events. simpl.
    rewrite create_calls_app, create_calls_naming.
    by destruct (delete_node_pools _).
  - rewrite (delete_for_unsupported cfg job Hno). simpl.
    split; [done|]. split; [lia|]. by split.
Qed.

(** X18. A replica count of zero or less is not rejected: on a supported job
    [delete_for] derives no name and still calls [delete_node_pools], with no
    names. *)
Theorem delete_for_no_replicas cfg job :
  supported job →
  (job_num_node_pools job ≤ 0)%Z →
  derived_names (trace (delete_for cfg job)) = [] ∧
  ∃ d, delete_calls (trace (delete_for cfg job)) = [d] ∧ DeleteCall.node_pool_names d = [].
Proof.
  intros Hsup Hn. split.
  - rewrite (derived_names_delete_for cfg job Hsup). unfold Py.range. by rewrite seqZ_nil.
  - eexists. split; [exact (delete_calls_supported cfg job Hsup)|].
    unfold delete_call_of, pool_names_of, DeleteCall.node_pool_names, Py.range.
    by rewrite seqZ_nil.
Qed.

(** X19. [delete_for] undoes what [create_for] requested: with the same
    provisioner configuration and job, the delete call names the pools of the
    create call, in the same project, zone and cluster, with the same retry
    interval and timeout, whatever the environment was at creation. *)
Theorem delete_for_targets_created_pools cfg env job sp prio :
  accepted env job sp prio →
  ∃ a d,
    create_calls (trace (create_for cfg env job)) = [a] ∧
    delete_calls (trace (delete_for cfg job)) = [d] ∧
    DeleteCall.node_pool_names d = CreateCall.node_pool_names a ∧
    DeleteCall.project d = CreateCall.project a ∧
    DeleteCall.zone d = CreateCall.zone a ∧
    DeleteCall.cluster d = CreateCall.cluster a ∧
    DeleteCall.retry_interval d = CreateCall.retry_interval a ∧
    DeleteCall.wait_timeout d = CreateCall.wait_timeout a.
Proof.
  intros Hacc.
  destruct (create_calls_accepted cfg env job sp prio Hacc)
    as (fmt & spot & res & _ & Hcalls).
  destruct Hacc as (Hsup & _).
  eexists _, _. split; [exact Hcalls|].
  split; [exact (delete_calls_supported cfg job Hsup)|].
  by repeat split.
Qed.

(** X20. The job class changes the topology and nothing else: for a training
    job and an inference job with the same configuration in the same
    environment, the inference call is the training call with the topology
    removed. *)
Theorem create_for_inference_differs_by_topology cfg env job1 job2 sp prio :
  accepted env job1 sp prio →
  accepted env job2 sp prio →
  Job.config job1 = Job.config job2 →
  isinstance job1 _INFERENCE_JOBS = false →
  isinstance job2 _INFERENCE_JOBS = true →
  ∃ a1 a2,
    create_calls (trace (create_for cfg env job1)) = [a1] ∧
    create_calls (trace (create_for cfg env job2)) = [a2] ∧
    CreateCall.topology a1 = Some (SystemCharacteristics.topology sp) ∧
    a2 = {|
      CreateCall.node_pool_names := CreateCall.node_pool_names a1;
      CreateCall.project := CreateCall.project a1;
      CreateCall.zone := CreateCall.zone a1;
      CreateCall.cluster := CreateCall.cluster a1;
      CreateCall.pre_provisioner_id := CreateCall.pre_provisioner_id a1;
      CreateCall.num_nodes_per_pool := CreateCall.num_nodes_per_pool a1;
      CreateCall.machine_type := CreateCall.machine_type a1;
      CreateCall.topology := None;
      CreateCall.use_spot_vm := CreateCall.use_spot_vm a1;
      CreateCall.reservation := CreateCall.reservation a1;
      CreateCall.location_hint := CreateCall.location_hint a1;
      CreateCall.enable_tpu_ici_resiliency := CreateCall.enable_tpu_ici_resiliency a1;
      CreateCall.service_account_email := CreateCall.service_account_email a1;
      CreateCall.additional_labels_list := CreateCall.additional_labels_list a1;
      CreateCall.retry_interval := CreateCall.retry_interval a1;
      CreateCall.wait_timeout := CreateCall.wait_timeout a1
    |}.
Proof.
  intros Hacc1 Hacc2 Hcfg Htrain Hinf.
  destruct (create_calls_accepted cfg env job1 sp prio Hacc1)
    as (fmt1 & spot1 & res1 & Hcap1 & Hcalls1).
  destruct (create_calls_accepted cfg env job2 sp prio Hacc2)
    as (fmt2 & spot2 & res2 & Hcap2 & Hcalls2).
  assert (job_reservation job1 = job_reservation job2) as Hres
    by (unfold job_reservation; by rewrite Hcfg).
  rewrite Hres, Hcap2 in Hcap1. inversion Hcap1; subst fmt1 spot1 res1.
  eexists _, _. split; [exact Hcalls1|]. split; [exact Hcalls2|].
  unfold create_call_of, pool_names_of, job_num_node_pools, job_smart_repair. simpl.
  rewrite Htrain, Hinf, Hcfg. done.
Qed.

End DeleteRuns.

(** X21. The "job-key" of pool i is a function of the namespace, the name
    and i alone: accepted runs on jobs with the same namespace and name,
    under any installations, configurations and environments, give pool i
    the same "job-key". *)
Theorem create_for_job_key_by_identity (I1 I2 : Imports) cfg1 cfg2 env1 env2 job1 job2
    sp1 sp2 prio1 prio2 :
  accepted (H:=I1) env1 job1 sp1 prio1 →
  accepted (H:=I2) env2 job2 sp2 prio2 →
  Job.namespace (Job.config job1) = Job.namespace (Job.config job2) →
  Job.name (Job.config job1) = Job.name (Job.config job2) →
  ∃ a1 a2,
    create_calls (trace (create_for (H:=I1) cfg1 env1 job1)) = [a1] ∧
    create_calls (trace (create_for (H:=I2) cfg2 env2 job2)) = [a2] ∧
    ∀ (i : nat) (l1 l2 : gmap string string),
      CreateCall.additional_labels_list a1 !! i = Some l1 →
      CreateCall.additional_labels_list a2 !! i = Some l2 →
      is_Some (l1 !! "job-key") ∧ l1 !! "job-key" = l2 !! "job-key".
Proof.
  intros Hacc1 Hacc2 Hns Hn.
  destruct (create_calls_accepted (H:=I1) cfg1 env1 job1 sp1 prio1 Hacc1)
    as (fmt1 & spot1 & res1 & _ & Hcalls1).
  destruct (create_calls_accepted (H:=I2) cfg2 env2 job2 sp2 prio2 Hacc2)
    as (fmt2 & spot2 & res2 & _ & Hcalls2).
  eexists _, _. split; [exact Hcalls1|]. split; [exact Hcalls2|].
  unfold create_call_of, CreateCall.additional_labels_list.
  intros i l1 l2. rewrite !list_lookup_fmap.
  intros Hl1 Hl2.
  apply fmap_Some in Hl1 as (x1 & Hx1 & ->). apply fmap_Some in Hl2 as (x2 & Hx2 & ->).
  apply lookup_seqZ in Hx1 as [-> _]. apply lookup_seqZ in Hx2 as [-> _].
  rewrite !job_key_label. split; [eauto|]. by rewrite Hns, Hn.
Qed.

(** ** The further properties on the samples *)

Section OnCases.

#[local] Existing Instance Sample.imports.

Ltac case_accepted tpu_type :=
  split; [reflexivity | split; [exists tpu_type; split | ]; vm_compute; reflexivity].

(** Tier "00" is not tier "0": spot capacity. *)
Lemma create_for_capacity_decision_witness :
  accepted (Sample.tier "00") Sample.training Sample.entry None ∧
  ∃ a, create_calls (trace (create_for Sample.cfg (Sample.tier "00") Sample.training)) = [a] ∧
       CreateCall.use_spot_vm a = true ∧ CreateCall.reservation a = None.
Proof.
  assert (accepted (Sample.tier "00") Sample.training Sample.entry None) as Hacc
    by case_accepted "v5litepod-16".
  split; [exact Hacc|].
  destruct (create_for_capacity_decision Sample.cfg _ _ _ _ Hacc) as (a & Hc & Hiff & Hres).
  exists a. split; [exact Hc|].
  destruct (CreateCall.use_spot_vm a) eqn:Hspot; [by split|].
  destruct Hiff as [Hto _]. destruct (Hto eq_refl) as [Htier _].
  vm_compute in Htier. discriminate Htier.
Defined.


Lemma create_for_call_fields_witness :
  accepted (Sample.tier "1") Cases.serving Sample.entry None ∧
  ∃ a, create_calls (trace (create_for Sample.cfg (Sample.tier "1") Cases.serving)) = [a] ∧
       CreateCall.num_nodes_per_pool a = 4 ∧
       CreateCall.machine_type a = "ct5lp-hightpu-4t" ∧
       CreateCall.pre_provisioner_id a = "pre".
Proof.
  assert (accepted (Sample.tier "1") Cases.serving Sample.entry None) as Hacc
    by case_accepted "v5litepod-16".
  split; [exact Hacc|].
  destruct (create_for_call_fields Sample.cfg _ _ _ _ Hacc)
    as (a & Hc & Hn & Hm & _ & _ & _ & Hid & _).
  exists a. split; [exact Hc|]. split; [exact Hn|]. split; [exact Hm | exact Hid].
Defined.

Lemma create_for_pool_alignment_witness :
  accepted (Sample.tier "0") Sample.training Sample.entry None ∧
  ∃ a, create_calls (trace (create_for Sample.cfg (Sample.tier "0") Sample.training)) = [a] ∧
       length (CreateCall.node_pool_names a) = 2%nat ∧
       CreateCall.node_pool_names a !! 1%nat = Some "ns1-job1-1".
Proof.
  assert (accepted (Sample.tier "0") Sample.training Sample.entry None) as Hacc
    by case_accepted "v5litepod-16".
  split; [exact Hacc|].
  destruct (create_for_pool_alignment Sample.cfg _ _ _ _ Hacc) as (a & Hc & Hlen & _ & Hat).
  exists a. split; [exact Hc|]. split; [exact Hlen|].
  apply (Hat 1). vm_compute. split; [discriminate | reflexivity].
Defined.

Lemma create_for_no_replicas_witness :
  accepted (Sample.tier "0") Cases.idle Sample.entry None ∧
  (job_num_node_pools Cases.idle ≤ 0)%Z ∧
  ∃ a, create_calls (trace (create_for Sample.cfg (Sample.tier "0") Cases.idle)) = [a] ∧
       CreateCall.node_pool_names a = [].
Proof.
  assert (accepted (Sample.tier "0") Cases.idle Sample.entry None) as Hacc
    by case_accepted "v5litepod-16".
  assert (job_num_node_pools Cases.idle ≤ 0)%Z as Hn by (vm_compute; discriminate).
  split; [exact Hacc|]. split; [exact Hn|].
  destruct (create_for_no_replicas Sample.cfg _ _ _ _ Hacc Hn) as (_ & a & Hc & Hnames & _).
  exists a. split; [exact Hc | exact Hnames].
Defined.

Lemma create_for_infer_error_witness :
  supported Cases.bad_instance ∧
  infer_tpu_type (job_instance_type Cases.bad_instance) = inl (ValueError "v5litepod-16") ∧
  create_for Sample.cfg (Sample.tier "0") Cases.bad_instance =
    ([], inl (ValueError "v5litepod-16")).
Proof.
  assert (supported Cases.bad_instance) as Hsup by reflexivity.
  assert (infer_tpu_type (job_instance_type Cases.bad_instance)
          = inl (ValueError "v5litepod-16")) as Hinfer by reflexivity.
  split; [exact Hsup|]. split; [exact Hinfer|].
  exact (create_for_infer_error Sample.cfg (Sample.tier "0") _ _ Hsup Hinfer).
Defined.

Lemma create_for_descriptor_error_witness :
  ∃ fmt, create_for Sample.cfg (Sample.tier_and_spec "0" "x") Sample.training =
           ([LogInfo fmt], inl (ValueError "x")).
Proof.
  apply (create_for_descriptor_error Sample.cfg (Sample.tier_and_spec "0" "x")
           Sample.training "v5litepod-16" Sample.entry "x"%char EmptyString);
    vm_compute; reflexivity.
Defined.

Lemma create_for_no_descriptor_witness :
  ∃ a, create_calls
         (trace (create_for Sample.cfg (Sample.tier_and_spec "0" EmptyString)
                   Sample.training)) = [a] ∧
       ∀ labels : gmap string string,
         labels ∈ CreateCall.additional_labels_list a → labels !! "job-priority" = None.
Proof.
  apply (create_for_no_descriptor Sample.cfg (Sample.tier_and_spec "0" EmptyString)
           Sample.training "v5litepod-16" Sample.entry);
    [reflexivity | reflexivity | vm_compute; reflexivity | right; vm_compute; reflexivity].
Defined.

Lemma create_for_label_keys_witness :
  accepted (Sample.tier_and_spec "1" "7") Sample.inference Sample.entry (Some 7) ∧
  ∃ a,
    create_calls
      (trace (create_for Sample.cfg (Sample.tier_and_spec "1" "7") Sample.inference)) = [a] ∧
    ∀ labels : gmap string string,
      labels ∈ CreateCall.additional_labels_list a →
      dom labels = ({[ "job-key" ]} ∪ {[ "job-priority" ]} ∪ ∅ : gset string).
Proof.
  assert (accepted (Sample.tier_and_spec "1" "7") Sample.inference Sample.entry (Some 7))
    as Hacc by case_accepted "v5litepod-16".
  split; [exact Hacc|].
  exact (create_for_label_keys Sample.cfg _ _ _ _ Hacc).
Defined.

Lemma create_for_labels_differ_by_job_key_witness :
  accepted (Sample.tier_and_spec "1" "7") Sample.training Sample.entry (Some 7) ∧
  ∃ a,
    create_calls
      (trace (create_for Sample.cfg (Sample.tier_and_spec "1" "7") Sample.training)) = [a] ∧
    ∀ l1 l2 : gmap string string,
      l1 ∈ CreateCall.additional_labels_list a →
      l2 ∈ CreateCall.additional_labels_list a →
      l1 !! "job-priority" = l2 !! "job-priority".
Proof.
  assert (accepted (Sample.tier_and_spec "1" "7") Sample.training Sample.entry (Some 7))
    as Hacc by case_accepted "v5litepod-16".
  split; [exact Hacc|].
  destruct (create_for_labels_differ_by_job_key Sample.cfg _ _ _ _ Hacc) as (a & Hc & Hall).
  exists a. split; [exact Hc|].
  intros l1 l2 H1 H2. by apply Hall.
Defined.

Lemma create_for_job_key_charset_witness :
  accepted (Sample.tier "0") Sample.training Sample.entry None ∧
  ∃ a, create_calls (trace (create_for Sample.cfg (Sample.tier "0") Sample.training)) = [a] ∧
    ∀ labels : gmap string string,
      labels ∈ CreateCall.additional_labels_list a →
      ∃ digest, labels !! "job-key" = Some digest ∧ String.length digest = 40%nat.
Proof.
  assert (accepted (Sample.tier "0") Sample.training Sample.entry None) as Hacc
    by case_accepted "v5litepod-16".
  split; [exact Hacc|].
  destruct (create_for_job_key_charset Sample.cfg _ _ _ _ Hacc) as (a & Hc & Hall).
  exists a. split; [exact Hc|].
  intros labels Hin. destruct (Hall labels Hin) as (d & Hd & Hlen & _). eauto.
Defined.

Lemma create_for_job_key_joined_witness :
  accepted (Sample.tier "0") (Cases.named "a/b" "c") Sample.entry None ∧
  accepted (Sample.tier "0") (Cases.named "a" "b/c") Sample.entry None ∧
  ∃ a1 a2,
    create_calls
      (trace (create_for Sample.cfg (Sample.tier "0") (Cases.named "a/b" "c"))) = [a1] ∧
    create_calls
      (trace (create_for Sample.cfg (Sample.tier "0") (Cases.named "a" "b/c"))) = [a2] ∧
    ∀ (i : nat) (l1 l2 : gmap string string),
      CreateCall.additional_labels_list a1 !! i = Some l1 →
      CreateCall.additional_labels_list a2 !! i = Some l2 →
      is_Some (l1 !! "job-key") ∧ l1 !! "job-key" = l2 !! "job-key".
Proof.
  assert (accepted (Sample.tier "0") (Cases.named "a/b" "c") Sample.entry None) as Hacc1
    by case_accepted "v5litepod-16".
  assert (accepted (Sample.tier "0") (Cases.named "a" "b/c") Sample.entry None) as Hacc2
    by case_accepted "v5litepod-16".
  split; [exact Hacc1|]. split; [exact Hacc2|].
  apply (create_for_job_key_joined Sample.cfg Sample.cfg _ _ _ _ _ _ _ _ "a" "b" "c"
           Hacc1 Hacc2); reflexivity.
Defined.

Lemma create_for_priority_label_inj_witness :
  accepted (Sample.tier_and_spec "1" "7") Sample.training Sample.entry (Some 7) ∧
  accepted (Sample.tier_and_spec "0" "7") Sample.inference Sample.entry (Some 7) ∧
  ∃ a1 a2,
    create_calls
      (trace (create_for Sample.cfg (Sample.tier_and_spec "1" "7") Sample.training)) = [a1] ∧
    create_calls
      (trace (create_for Sample.cfg (Sample.tier_and_spec "0" "7") Sample.inference)) = [a2].
Proof.
  assert (accepted (Sample.tier_and_spec "1" "7") Sample.training Sample.entry (Some 7))
    as Hacc1 by case_accepted "v5litepod-16".
  assert (accepted (Sample.tier_and_spec "0" "7") Sample.inference Sample.entry (Some 7))
    as Hacc2 by case_accepted "v5litepod-16".
  split; [exact Hacc1|]. split; [exact Hacc2|].
  destruct (create_for_priority_label_inj Sample.cfg Sample.cfg _ _ _ _ _ _ _ _ Hacc1 Hacc2)
    as (a1 & a2 & H1 & H2 & _).
  exists a1, a2. split; [exact H1 | exact H2].
Defined.

Lemma delete_for_run_order_witness :
  supported Sample.unknown_type ∧
  ∃ d,
    delete_for (H:=Cases.outage) Sample.cfg Sample.unknown_type =
      ([ConstructNodePoolName "ns1" "job1" 0; ConstructNodePoolName "ns1" "job1" 1;
        DeleteNodePools d], inl (OtherError "timeout")) ∧
    DeleteCall.cluster d = "cl".
Proof.
  assert (supported Sample.unknown_type) as Hsup by reflexivity.
  split; [exact Hsup|].
  destruct (delete_for_run_order (H:=Cases.outage) Sample.cfg _ Hsup)
    as (d & _ & _ & _ & Hcl & _ & _ & Hfail & _).
  exists d. split; [exact (Hfail (OtherError "timeout") eq_refl) | exact Hcl].
Defined.

Lemma delete_for_no_replicas_witness :
  supported Cases.idle ∧
  (job_num_node_pools Cases.idle ≤ 0)%Z ∧
  ∃ d, delete_calls (trace (delete_for Sample.cfg Cases.idle)) = [d] ∧
       DeleteCall.node_pool_names d = [].
Proof.
  assert (supported Cases.idle) as Hsup by reflexivity.
  assert (job_num_node_pools Cases.idle ≤ 0)%Z as Hn by (vm_compute; discriminate).
  split; [exact Hsup|]. split; [exact Hn|].
  exact (proj2 (delete_for_no_replicas Sample.cfg _ Hsup Hn)).
Defined.

Lemma delete_for_targets_created_pools_witness :
  accepted (Sample.tier "1") Sample.training Sample.entry None ∧
  ∃ a d,
    create_calls (trace (create_for Sample.cfg (Sample.tier "1") Sample.training)) = [a] ∧
    delete_calls (trace (delete_for Sample.cfg Sample.training)) = [d] ∧
    DeleteCall.node_pool_names d = CreateCall.node_pool_names a ∧
    DeleteCall.cluster d = CreateCall.cluster a.
Proof.
  assert (accepted (Sample.tier "1") Sample.training Sample.entry None) as Hacc
    by case_accepted "v5litepod-16".
  split; [exact Hacc|].
  destruct (delete_for_targets_created_pools Sample.cfg _ _ _ _ Hacc)
    as (a & d & Hc & Hd & Hnames & _ & _ & Hcl & _).
  exists a, d. split; [exact Hc|]. split; [exact Hd|]. split; [exact Hnames | exact Hcl].
Defined.

Lemma create_for_inference_differs_by_topology_witness :
  accepted (Sample.tier "0") Sample.training Sample.entry None ∧
  accepted (Sample.tier "0") Cases.serving Sample.entry None ∧
  ∃ a1 a2,
    create_calls (trace (create_for Sample.cfg (Sample.tier "0") Sample.training)) = [a1] ∧
    create_calls (trace (create_for Sample.cfg (Sample.tier "0") Cases.serving)) = [a2] ∧
    CreateCall.topology a1 = Some "4x4" ∧
    CreateCall.topology a2 = None ∧
    CreateCall.reservation a2 = CreateCall.reservation a1.
Proof.
  assert (accepted (Sample.tier "0") Sample.training Sample.entry None) as Hacc1
    by case_accepted "v5litepod-16".
  assert (accepted (Sample.tier "0") Cases.serving Sample.entry None) as Hacc2
    by case_accepted "v5litepod-16".
  split; [exact Hacc1|]. split; [exact Hacc2|].
  destruct (create_for_inference_differs_by_topology Sample.cfg _ _ _ _ _ Hacc1 Hacc2)
    as (a1 & a2 & H1 & H2 & Htopo & ->); [reflexivity..|].
  exists a1. eexists. split; [exact H1|]. split; [exact H2|].
  split; [exact Htopo|]. split; reflexivity.
Defined.

End OnCases.

Lemma create_for_job_key_by_identity_witness :
  accepted (H:=Sample.imports) (Sample.tier "0") Sample.training Sample.entry None ∧
  accepted (H:=Cases.outage) (Sample.tier_and_spec "1" "7") Sample.inference Sample.entry
    (Some 7) ∧
  ∃ a1 a2,
    create_calls
      (trace (create_for (H:=Sample.imports) Sample.cfg (Sample.tier "0") Sample.training))
      = [a1] ∧
    create_calls
      (trace (create_for (H:=Cases.outage) Sample.cfg (Sample.tier_and_spec "1" "7")
                Sample.inference)) = [a2] ∧
    ∀ (i : nat) (l1 l2 : gmap string string),
      CreateCall.additional_labels_list a1 !! i = Some l1 →
      CreateCall.additional_labels_list a2 !! i = Some l2 →
      is_Some (l1 !! "job-key") ∧ l1 !! "job-key" = l2 !! "job-key".
Proof.
  assert (accepted (H:=Sample.imports) (Sample.tier "0") Sample.training Sample.entry None)
    as Hacc1
    by (split; [reflexivity | split; [exists "v5litepod-16"; split | ]; vm_compute; reflexivity]).
  assert (accepted (H:=Cases.outage) (Sample.tier_and_spec "1" "7") Sample.inference
            Sample.entry (Some 7)) as Hacc2
    by (split; [reflexivity | split; [exists "v5litepod-16"; split | ]; vm_compute; reflexivity]).
  split; [exact Hacc1|]. split; [exact Hacc2|].
  apply (create_for_job_key_by_identity Sample.imports Cases.outage Sample.cfg Sample.cfg
           _ _ _ _ _ _ _ _ Hacc1 Hacc2); reflexivity.
Defined.
